(** * ZaraAI: the service dispatch and cache of [LightweightAPIManager]

    A shallow embedding of [api_integration_manager.py] (the manager, its
    nine adapters) and of [DefendIQSecurity._encrypt_data] from
    [phase8-enterprise_integration.py], with the properties the
    specification states about them. *)

From Stdlib Require Import ZArith QArith String Ascii List Bool Lia.
From stdpp Require Import gmap strings.

Set Warnings "-register-all".
Local Open Scope string_scope.
Local Open Scope list_scope.

(** ** Python values *)

Module Py.

(** The values that flow through the manager: JSON-like data, plus [bytes]
    as the representative of values [json.dumps] refuses.  A [dict] keeps
    its items in insertion order; its keys are strings. *)
Inductive pyval : Type :=
  | PNone
  | PBool (b : bool)
  | PInt (z : Z)
  | PFloat (q : Q)
  | PStr (s : string)
  | PBytes (s : string)
  | PList (l : list pyval)
  | PDict (d : list (string * pyval)).

(** An object is a value together with its identity ([id(obj)]).  Nothing in
    the modelled code mutates a result dictionary after building it, so an
    object's value never changes. *)
Record pyobj : Type := { obj_id : nat; obj_val : pyval }.

(** The exception classes that occur, with the root of the hierarchy:
    [SystemExit], [KeyboardInterrupt] and [GeneratorExit] derive from
    [BaseException] only; every other class derives from [Exception]. *)
Inductive exn_class : Type :=
  | AttributeError
  | TypeError
  | ValueError
  | KeyError
  | RequestException
  | SystemExit
  | KeyboardInterrupt
  | GeneratorExit
  | OtherException (name : string).

Record exn : Type := { exn_cls : exn_class; exn_str : string }.

(** [isinstance(e, Exception)]: what [except Exception] catches. *)
Definition is_Exception (e : exn) : bool :=
  match exn_cls e with
  | SystemExit | KeyboardInterrupt | GeneratorExit => false
  | _ => true
  end.

Inductive outcome (A : Type) : Type :=
  | Ok (a : A)
  | Raise (e : exn).
Arguments Ok {A} a.
Arguments Raise {A} e.

(** [bool(v)] *)
Definition truthy (v : pyval) : bool :=
  match v with
  | PNone => false
  | PBool b => b
  | PInt z => negb (z =? 0)%Z
  | PFloat q => negb (Qeq_bool q 0)
  | PStr s | PBytes s => negb (String.eqb s "")
  | PList l => match l with [] => false | _ => true end
  | PDict d => match d with [] => false | _ => true end
  end.

(** Truth value of an argument that is a string or [None]. *)
Definition truthy_key (k : option string) : bool :=
  match k with
  | Some s => negb (String.eqb s "")
  | None => false
  end.

Definition type_name (v : pyval) : string :=
  match v with
  | PNone => "NoneType"
  | PBool _ => "bool"
  | PInt _ => "int"
  | PFloat _ => "float"
  | PStr _ => "str"
  | PBytes _ => "bytes"
  | PList _ => "list"
  | PDict _ => "dict"
  end.

Definition no_attribute (v : pyval) (attr : string) : exn :=
  {| exn_cls := AttributeError;
     exn_str := "'" +:+ type_name v +:+ "' object has no attribute '" +:+ attr +:+ "'" |}.

(** Lookup in the items of a dict: the value of the first item with the key. *)
Fixpoint dict_lookup (d : list (string * pyval)) (key : string) : option pyval :=
  match d with
  | [] => None
  | (k, v) :: d' => if String.eqb k key then Some v else dict_lookup d' key
  end.

(** [v.get(key, default)]: only a dict has the method. *)
Definition py_get (v : pyval) (key : string) (default : pyval) : outcome pyval :=
  match v with
  | PDict d => Ok (match dict_lookup d key with Some x => x | None => default end)
  | _ => Raise (no_attribute v "get")
  end.

(** [c.lower()] on the ASCII letters. *)
Definition lower_ascii (c : ascii) : ascii :=
  let n := nat_of_ascii c in
  if ((65 <=? n) && (n <=? 90))%nat then ascii_of_nat (n + 32) else c.

Fixpoint lower (s : string) : string :=
  match s with
  | EmptyString => EmptyString
  | String c s' => String (lower_ascii c) (lower s')
  end.

(** [v.lower()]: a str and a bytes have the method, and each gives back a
    value of its own type. *)
Inductive lowered : Type :=
  | LowerStr (s : string)
  | LowerBytes (s : string).

Definition py_lower (v : pyval) : outcome lowered :=
  match v with
  | PStr s => Ok (LowerStr (lower s))
  | PBytes s => Ok (LowerBytes (lower s))
  | _ => Raise (no_attribute v "lower")
  end.

(** What [needle in haystack] raises for a str needle and a bytes
    haystack. *)
Definition str_in_bytes_error : exn :=
  {| exn_cls := TypeError;
     exn_str := "a bytes-like object is required, not 'str'" |}.

(** What a library function that produces text does: it gives the text, or
    it raises an exception of a class derived from [Exception], as [str] and
    [json.dumps] do with [ValueError] for an int beyond the digit limit, and
    [str.encode] with [UnicodeEncodeError] for a lone surrogate. *)
Inductive lib_result : Type :=
  | Text (s : string)
  | Fails (exception_name message : string).

Definition lib_outcome (r : lib_result) : outcome string :=
  match r with
  | Text s => Ok s
  | Fails name message => Raise {| exn_cls := OtherException name; exn_str := message |}
  end.

Fixpoint startswith (s p : string) : bool :=
  match p, s with
  | EmptyString, _ => true
  | String _ _, EmptyString => false
  | String a p', String b s' => if Ascii.eqb a b then startswith s' p' else false
  end.

(** [p in s] on strings. *)
Fixpoint str_in (p s : string) : bool :=
  startswith s p ||
  match s with
  | EmptyString => false
  | String _ s' => str_in p s'
  end.

Definition is_dict (v : pyval) : bool :=
  match v with PDict _ => true | _ => false end.

End Py.
Export Py.

(** ** The outside world and the run-time state *)

(** [datetime.now()], through the two renderings the code takes of it. *)
Record DateTime : Type := { isoformat : string; strftime_ymd : string }.

(** What [requests.get] does: a response with its status code and its JSON
    body (absent when [response.json()] fails to decode), or a failure of
    the request, which the library reports as a [RequestException]. *)
Record Response : Type := { status_code : Z; json_body : option pyval }.

Inductive http_result : Type :=
  | HttpResponse (r : Response)
  | HttpError (message : string).

(** The environment of a run.  Every interaction with it (a clock reading,
    a request, a draw of random bytes) advances [tick]; the oracles give the
    answer of the interaction at each tick.  [requests_available] and
    [cryptography_available] say whether the guarded imports succeeded;
    [builtin_str v] is what [str(v)] does for a value that is not a str.
    A reading of [time.time()] is a rational number of seconds, and the
    differences the code takes of two readings are exact. *)
Record World : Type := {
  requests_available : bool;
  cryptography_available : bool;
  time_time : nat -> Q;
  datetime_now : nat -> DateTime;
  requests_get : nat -> string -> pyval -> http_result;
  os_urandom : nat -> string;
  os_getenv : string -> option string;
  builtin_str : pyval -> lib_result;
  tick : nat
}.

Definition advance (w : World) : World :=
  {| requests_available := requests_available w;
     cryptography_available := cryptography_available w;
     time_time := time_time w;
     datetime_now := datetime_now w;
     requests_get := requests_get w;
     os_urandom := os_urandom w;
     os_getenv := os_getenv w;
     builtin_str := builtin_str w;
     tick := S (tick w) |}.

Inductive method : Type := MakeCall | GetOfflineResponse.

(** One invocation of an adapter method by the manager. *)
Record Invocation : Type := {
  inv_service : string;
  inv_method : method;
  inv_endpoint : string;
  inv_params : pyval
}.

(** The interpreter side of a run: the world, the next fresh object
    identity, and the log of the adapter methods the manager has invoked. *)
Record Runtime : Type := {
  world : World;
  next_id : nat;
  calls : list Invocation
}.

Definition with_world (rt : Runtime) (w : World) : Runtime :=
  {| world := w; next_id := next_id rt; calls := calls rt |}.

Definition read_time (rt : Runtime) : Q * Runtime :=
  (time_time (world rt) (tick (world rt)), with_world rt (advance (world rt))).

Definition read_datetime (rt : Runtime) : DateTime * Runtime :=
  (datetime_now (world rt) (tick (world rt)), with_world rt (advance (world rt))).

(** Evaluating a dict display creates a new object. *)
Definition new_object (v : pyval) (rt : Runtime) : pyobj * Runtime :=
  ({| obj_id := next_id rt; obj_val := v |},
   {| world := world rt; next_id := S (next_id rt); calls := calls rt |}).

Definition log_call (i : Invocation) (rt : Runtime) : Runtime :=
  {| world := world rt; next_id := next_id rt; calls := calls rt ++ [i] |}.

(** ** The manager *)

(** An adapter: the two methods the manager calls.  Each builds the value of
    a new result object, or raises; it may interact with the world.  No
    adapter class holds a reference to the manager. *)
Record Adapter : Type := {
  make_call : string -> pyval -> World -> outcome pyval * World;
  get_offline_response : string -> pyval -> World -> outcome pyval * World
}.

(** An entry of the cache: the dict [{'data': ..., 'timestamp': ...}]. *)
Record CacheEntry : Type := { data : pyobj; timestamp : Q }.

Record Manager : Type := {
  service_registry : gmap string Adapter;
  cache : gmap string CacheEntry;
  cache_ttl : Q;
  offline_mode : bool;
  api_health : gmap string pyval
}.

Definition set_cache (self : Manager) (c : gmap string CacheEntry) : Manager :=
  {| service_registry := service_registry self;
     cache := c;
     cache_ttl := cache_ttl self;
     offline_mode := offline_mode self;
     api_health := api_health self |}.

Definition set_offline_mode (self : Manager) (b : bool) : Manager :=
  {| service_registry := service_registry self;
     cache := cache self;
     cache_ttl := cache_ttl self;
     offline_mode := b;
     api_health := api_health self |}.

(** The dict that [_error_response] builds. *)
Definition error_envelope (message : string) (ts : string) (offline : bool) : pyval :=
  PDict [("success", PBool false);
         ("error", PStr message);
         ("timestamp", PStr ts);
         ("offline_mode", PBool offline)].

Definition _error_response (self : Manager) (rt : Runtime) (message : string)
  : pyobj * Runtime :=
  let '(now, rt1) := read_datetime rt in
  new_object (error_envelope message (isoformat now) (offline_mode self)) rt1.

(** The cache check of [make_api_call]: the stored result when the key is
    true, present, and its entry younger than [cache_ttl]. *)
Definition cache_check (self : Manager) (rt : Runtime) (cache_key : option string)
  : option pyobj * Runtime :=
  match cache_key with
  | Some k =>
      if truthy_key cache_key then
        match cache self !! k with
        | Some cached_data =>
            let '(now, rt1) := read_time rt in
            if Qlt_le_dec (now - timestamp cached_data) (cache_ttl self)
            then (Some (data cached_data), rt1)
            else (None, rt1)
        | None => (None, rt)
        end
      else (None, rt)
  | None => (None, rt)
  end.

(** The handler [except Exception as e] of [make_api_call]. *)
Definition api_call_failed (self : Manager) (rt : Runtime) (e : exn)
  : outcome pyobj * Manager * Runtime :=
  if is_Exception e then
    let '(r, rt1) := _error_response self rt ("API call failed: " +:+ exn_str e) in
    (Ok r, self, rt1)
  else (Raise e, self, rt).

(** The method of the adapter that the manager calls, by [offline_mode]. *)
Definition chosen_method (self : Manager) : method :=
  if offline_mode self then GetOfflineResponse else MakeCall.

Definition invoke (adapter : Adapter) (m : method)
  : string -> pyval -> World -> outcome pyval * World :=
  match m with
  | MakeCall => make_call adapter
  | GetOfflineResponse => get_offline_response adapter
  end.

(** The rest of the [try] block once the adapter has returned [v], now the
    object [result]: the cache store and the [return]. *)
Definition store_and_return (self : Manager) (rt : Runtime) (result : pyobj)
    (cache_key : option string) : outcome pyobj * Manager * Runtime :=
  if truthy_key cache_key then
    match py_get (obj_val result) "success" PNone with
    | Raise e => api_call_failed self rt e
    | Ok s =>
        if truthy s then
          let '(now, rt1) := read_time rt in
          (Ok result,
           set_cache self
             (<[default "" cache_key := {| data := result; timestamp := now |}]> (cache self)),
           rt1)
        else (Ok result, self, rt)
    end
  else (Ok result, self, rt).

(** The [try] block from the point where the adapter method has answered
    [res], with the handler. *)
Definition after_adapter (self : Manager) (rt : Runtime) (res : outcome pyval * World)
    (cache_key : option string) : outcome pyobj * Manager * Runtime :=
  let rt2 := with_world rt (snd res) in
  match fst res with
  | Raise e => api_call_failed self rt2 e
  | Ok v =>
      let '(result, rt3) := new_object v rt2 in
      store_and_return self rt3 result cache_key
  end.

(** The [try] block of [make_api_call] with its handler. *)
Definition dispatch (self : Manager) (rt : Runtime) (adapter : Adapter)
    (service_name endpoint : string) (params : pyval) (cache_key : option string)
  : outcome pyobj * Manager * Runtime :=
  let m := chosen_method self in
  let rt1 := log_call {| inv_service := service_name; inv_method := m;
                         inv_endpoint := endpoint; inv_params := params |} rt in
  after_adapter self rt1 (invoke adapter m endpoint params (world rt1)) cache_key.

Definition make_api_call (self : Manager) (rt : Runtime)
    (service_name endpoint : string) (params : pyval) (cache_key : option string)
  : outcome pyobj * Manager * Runtime :=
  match service_registry self !! service_name with
  | None =>
      let '(r, rt1) :=
        _error_response self rt ("Service " +:+ service_name +:+ " not available") in
      (Ok r, self, rt1)
  | Some adapter =>
      match cache_check self rt cache_key with
      | (Some cached, rt1) => (Ok cached, self, rt1)
      | (None, rt1) =>
          dispatch self rt1 adapter service_name endpoint params cache_key
      end
  end.

(** ** The adapters *)

(** [try: body except Exception: handler], for a body that only interacts
    with the world. *)
Definition except_Exception {A : Type} (body : outcome A * World)
    (handler : World -> outcome A * World) : outcome A * World :=
  match body with
  | (Ok a, w) => (Ok a, w)
  | (Raise e, w) => if is_Exception e then handler w else (Raise e, w)
  end.

(** [requests.get(url, params=..., timeout=...)]; with the import failed,
    [requests] is [None]. *)
Definition requests_get_call (url : string) (params : pyval) (w : World)
  : outcome Response * World :=
  if requests_available w then
    match requests_get w (tick w) url params with
    | HttpResponse r => (Ok r, advance w)
    | HttpError msg => (Raise {| exn_cls := RequestException; exn_str := msg |}, advance w)
    end
  else (Raise (no_attribute PNone "get"), w).

(** [response.json()] *)
Definition response_json (r : Response) : outcome pyval :=
  match json_body r with
  | Some body => Ok body
  | None => Raise {| exn_cls := ValueError; exn_str := "Expecting value" |}
  end.

(** [str(v)], which is also the text an f-string puts for [{v}]. *)
Definition format_value (w : World) (v : pyval) : outcome string :=
  match v with
  | PStr s => Ok s
  | _ => lib_outcome (builtin_str w v)
  end.

Module WolframAlphaAdapter.

(** The object: [api_key] is read from the environment when it is built. *)
Record t : Type := { api_key : option string; base_url : string }.

Definition __init__ (w : World) : t :=
  {| api_key := os_getenv w "WOLFRAM_ALPHA_API_KEY";
     base_url := "http://api.wolframalpha.com/v1" |}.

(** The four calculators.  Each body only tests substrings of a str, which
    cannot raise, so its [try]/[except] never reaches the handler. *)
Definition _calculate_basic_derivative (query : string) : option string :=
  if str_in "x^2" query then Some "2x"
  else if str_in "sin(x)" query then Some "cos(x)"
  else if str_in "cos(x)" query then Some "-sin(x)"
  else if str_in "e^x" query then Some "e^x"
  else None.

Definition _calculate_basic_integral (query : string) : option string :=
  if str_in "2x" query then Some "x^2 + C"
  else if str_in "cos(x)" query then Some "sin(x) + C"
  else if str_in "sin(x)" query then Some "-cos(x) + C"
  else None.

Definition _solve_basic_equation (query : string) : option string :=
  if str_in "2x = 8" query then Some "x = 4"
  else if str_in "x + 5 = 12" query then Some "x = 7"
  else if str_in "x^2 = 16" query then Some "x = 4 or x = -4"
  else None.

Definition _calculate_expression (query : string) : option string :=
  if str_in "2+2" query then Some "4"
  else if str_in "5*8" query then Some "40"
  else if str_in "15/3" query then Some "5"
  else None.

(** The dict [math_responses], in the order of its display. *)
Definition math_responses : list (string * (string -> option string)) :=
  [("derivative", _calculate_basic_derivative);
   ("integral", _calculate_basic_integral);
   ("solve", _solve_basic_equation);
   ("calculate", _calculate_expression)].

(** The [for] loop of [get_offline_response]: the first true result of a
    calculator whose keyword occurs in the query. *)
Fixpoint first_result (table : list (string * (string -> option string)))
    (query : string) : option string :=
  match table with
  | [] => None
  | (math_type, calculator) :: rest =>
      if str_in math_type query then
        match calculator query with
        | Some result =>
            if truthy (PStr result) then Some result else first_result rest query
        | None => first_result rest query
        end
      else first_result rest query
  end.

Definition offline_success (result : string) : pyval :=
  PDict [("success", PBool true);
         ("data", PStr result);
         ("source", PStr "offline_math");
         ("cached", PBool false)].

Definition offline_failure : pyval :=
  PDict [("success", PBool false);
         ("error", PStr "Offline math computation not available for this query");
         ("suggestion", PStr "Try basic arithmetic, derivatives, or integrals")].

Definition get_offline_response (self : t) (endpoint : string) (params : pyval)
    (w : World) : outcome pyval * World :=
  match py_get params "query" (PStr "") with
  | Raise e => (Raise e, w)
  | Ok q =>
      match py_lower q with
      | Raise e => (Raise e, w)
      | Ok (LowerStr query) =>
          match first_result math_responses query with
          | Some result => (Ok (offline_success result), w)
          | None => (Ok offline_failure, w)
          end
      | Ok (LowerBytes _) =>
          (* the first test of the loop, ['derivative' in query] *)
          (Raise str_in_bytes_error, w)
      end
  end.

Definition _parse_response (data : pyval) : outcome pyval :=
  match data with
  | PDict d =>
      Ok (PDict [("result", default (PStr "No result available") (dict_lookup d "result"));
                 ("steps", default (PList []) (dict_lookup d "steps"));
                 ("visualization", default (PStr "") (dict_lookup d "visualization"))])
  | _ => Raise (no_attribute data "get")
  end.

(** [d[key] = v] on the items of a dict. *)
Fixpoint dict_set (d : list (string * pyval)) (key : string) (v : pyval)
  : list (string * pyval) :=
  match d with
  | [] => [(key, v)]
  | (k, x) :: d' => if String.eqb k key then (k, v) :: d' else (k, x) :: dict_set d' key v
  end.

(** [{'appid': key, **params}] *)
Definition full_params (key : string) (params : pyval) : outcome pyval :=
  match params with
  | PDict d =>
      Ok (PDict (fold_left (fun acc kv => dict_set acc (fst kv) (snd kv)) d
                           [("appid", PStr key)]))
  | _ => Raise {| exn_cls := TypeError;
                  exn_str := "'" +:+ type_name params +:+ "' object is not a mapping" |}
  end.

(** The [try] block of [make_call]. *)
Definition online_call (self : t) (key endpoint : string) (params : pyval) (w : World)
  : outcome pyval * World :=
  match full_params key params with
  | Raise e => (Raise e, w)
  | Ok fp =>
      match requests_get_call (base_url self +:+ "/" +:+ endpoint) fp w with
      | (Raise e, w1) => (Raise e, w1)
      | (Ok response, w1) =>
          match response_json response with
          | Raise e => (Raise e, w1)
          | Ok body =>
              match _parse_response body with
              | Raise e => (Raise e, w1)
              | Ok parsed =>
                  (Ok (PDict [("success", PBool true);
                              ("data", parsed);
                              ("source", PStr "wolfram_alpha")]), w1)
              end
          end
      end
  end.

Definition make_call (self : t) (endpoint : string) (params : pyval) (w : World)
  : outcome pyval * World :=
  if truthy_key (api_key self) then
    except_Exception (online_call self (default "" (api_key self)) endpoint params w)
                     (get_offline_response self endpoint params)
  else get_offline_response self endpoint params w.

Definition adapter (self : t) : Adapter :=
  Build_Adapter (make_call self) (get_offline_response self).

End WolframAlphaAdapter.

Module MathComputationAdapter.

Definition make_call (endpoint : string) (params : pyval) (w : World)
  : outcome pyval * World :=
  (Ok (PDict [("success", PBool true);
              ("data", PDict [("message", PStr "Math computation service ready")]);
              ("source", PStr "math_computation")]), w).

Definition get_offline_response (endpoint : string) (params : pyval) (w : World)
  : outcome pyval * World :=
  (Ok (PDict [("success", PBool true);
              ("data", PDict [("message", PStr "Offline math computation available")]);
              ("source", PStr "offline_math")]), w).

Definition adapter : Adapter := Build_Adapter make_call get_offline_response.

End MathComputationAdapter.

Module CalendarAdapter.

(** The two events read the clock one after the other. *)
Definition _simulate_calendar_events (w : World) : pyval * World :=
  let d1 := strftime_ymd (datetime_now w (tick w)) in
  let w1 := advance w in
  let d2 := strftime_ymd (datetime_now w1 (tick w1)) in
  let w2 := advance w1 in
  (PDict [("events",
           PList [PDict [("title", PStr "Team Meeting");
                         ("time", PStr "10:00 AM");
                         ("date", PStr d1)];
                  PDict [("title", PStr "Project Review");
                         ("time", PStr "2:00 PM");
                         ("date", PStr d2)]]);
          ("source", PStr "simulated_calendar")], w2).

Definition make_call (endpoint : string) (params : pyval) (w : World)
  : outcome pyval * World :=
  let '(events, w1) := _simulate_calendar_events w in
  (Ok (PDict [("success", PBool true);
              ("data", events);
              ("source", PStr "calendar_simulation")]), w1).

Definition get_offline_response := make_call.

Definition adapter : Adapter := Build_Adapter make_call get_offline_response.

End CalendarAdapter.

Module TaskAdapter.

Definition _simulate_tasks : pyval :=
  PDict [("tasks",
          PList [PDict [("id", PInt 1); ("title", PStr "Complete API integration");
                        ("completed", PBool false)];
                 PDict [("id", PInt 2); ("title", PStr "Test offline functionality");
                        ("completed", PBool true)];
                 PDict [("id", PInt 3); ("title", PStr "Document new features");
                        ("completed", PBool false)]])].

Definition make_call (endpoint : string) (params : pyval) (w : World)
  : outcome pyval * World :=
  (Ok (PDict [("success", PBool true);
              ("data", _simulate_tasks);
              ("source", PStr "task_simulation")]), w).

Definition get_offline_response := make_call.

Definition adapter : Adapter := Build_Adapter make_call get_offline_response.

End TaskAdapter.

Module DataAnalysisAdapter.

Definition _simulate_analysis (params : pyval) (w : World) : outcome pyval :=
  match py_get params "dataset" (PStr "sales") with
  | Raise e => Raise e
  | Ok dataset =>
      match format_value w dataset with
      | Raise e => Raise e
      | Ok name =>
          Ok (PDict [("insights",
                      PList [PStr ("Trend analysis for " +:+ name
                                   +:+ ": Positive growth detected");
                             PStr "Correlation: Marketing spend strongly correlates with revenue";
                             PStr "Recommendation: Increase investment in top-performing channels"]);
                     ("metrics",
                      PDict [("growth_rate", PStr "15.2%");
                             ("correlation_strength", PStr "0.78");
                             ("confidence", PStr "95%")])])
      end
  end.

Definition make_call (endpoint : string) (params : pyval) (w : World)
  : outcome pyval * World :=
  match _simulate_analysis params w with
  | Raise e => (Raise e, w)
  | Ok analysis =>
      (Ok (PDict [("success", PBool true);
                  ("data", analysis);
                  ("source", PStr "data_analysis")]), w)
  end.

Definition get_offline_response := make_call.

Definition adapter : Adapter := Build_Adapter make_call get_offline_response.

End DataAnalysisAdapter.

Module AccountingAdapter.

Definition _simulate_accounting_data : pyval :=
  PDict [("financial_statements",
          PDict [("balance_sheet",
                  PDict [("assets", PInt 150000);
                         ("liabilities", PInt 75000);
                         ("equity", PInt 75000)]);
                 ("income_statement",
                  PDict [("revenue", PInt 50000);
                         ("expenses", PInt 35000);
                         ("net_income", PInt 15000)])]);
         ("health_metrics",
          PDict [("current_ratio", PFloat 2);
                 ("debt_to_equity", PFloat 1);
                 ("profit_margin", PStr "30%")])].

Definition make_call (endpoint : string) (params : pyval) (w : World)
  : outcome pyval * World :=
  (Ok (PDict [("success", PBool true);
              ("data", _simulate_accounting_data);
              ("source", PStr "accounting_simulation")]), w).

Definition get_offline_response := make_call.

Definition adapter : Adapter := Build_Adapter make_call get_offline_response.

End AccountingAdapter.

Module AgricultureAdapter.

Definition _simulate_agriculture_data : pyval :=
  PDict [("field_metrics",
          PDict [("soil_moisture", PStr "45%");
                 ("temperature", PStr "22Â°C");
                 ("humidity", PStr "65%")]);
         ("crop_health", PStr "Good");
         ("recommendations",
          PList [PStr "Optimal planting conditions detected";
                 PStr "Consider irrigation in 3 days";
                 PStr "Pest risk: Low"])].

Definition make_call (endpoint : string) (params : pyval) (w : World)
  : outcome pyval * World :=
  (Ok (PDict [("success", PBool true);
              ("data", _simulate_agriculture_data);
              ("source", PStr "agriculture_simulation")]), w).

Definition get_offline_response := make_call.

Definition adapter : Adapter := Build_Adapter make_call get_offline_response.

End AgricultureAdapter.

Module ProjectManagementAdapter.

Definition _simulate_project_data : pyval :=
  PDict [("projects",
          PList [PDict [("name", PStr "ZaraAI Phase 5");
                        ("progress", PStr "75%");
                        ("milestones",
                         PList [PStr "API Foundation"; PStr "Domain Integration";
                                PStr "Testing"]);
                        ("status", PStr "On Track")]]);
         ("team_metrics",
          PDict [("productivity", PStr "88%");
                 ("burnout_risk", PStr "Low");
                 ("collaboration", PStr "High")])].

Definition make_call (endpoint : string) (params : pyval) (w : World)
  : outcome pyval * World :=
  (Ok (PDict [("success", PBool true);
              ("data", _simulate_project_data);
              ("source", PStr "project_management_simulation")]), w).

Definition get_offline_response := make_call.

Definition adapter : Adapter := Build_Adapter make_call get_offline_response.

End ProjectManagementAdapter.

Module RelationshipAdapter.

(** [context] is read from [params] and not used. *)
Definition _analyze_relationship (params : pyval) : outcome pyval :=
  match py_get params "context" (PStr "general") with
  | Raise e => Raise e
  | Ok context =>
      Ok (PDict [("insights",
                  PList [PStr "Communication patterns: Healthy and open";
                         PStr "Emotional connection: Strong and growing";
                         PStr "Conflict resolution: Effective and respectful"]);
                 ("suggestions",
                  PList [PStr "Schedule quality time this weekend";
                         PStr "Practice active listening techniques";
                         PStr "Express appreciation daily"]);
                 ("health_score", PStr "9.2/10")])
  end.

Definition make_call (endpoint : string) (params : pyval) (w : World)
  : outcome pyval * World :=
  match _analyze_relationship params with
  | Raise e => (Raise e, w)
  | Ok analysis =>
      (Ok (PDict [("success", PBool true);
                  ("data", analysis);
                  ("source", PStr "relationship_analysis")]), w)
  end.

Definition get_offline_response := make_call.

Definition adapter : Adapter := Build_Adapter make_call get_offline_response.

End RelationshipAdapter.

(** ** Building the manager *)

Definition _check_connectivity (self : Manager) (w : World) : Manager * World :=
  if negb (requests_available w) then (set_offline_mode self true, w)
  else
    match requests_get_call "https://httpbin.org/status/200" PNone w with
    | (Ok response, w1) =>
        (set_offline_mode self (negb (status_code response =? 200)%Z), w1)
    | (Raise _, w1) => (set_offline_mode self true, w1)
    end.

Definition shipped_registry (w : World) : gmap string Adapter :=
  list_to_map
    [("wolfram_alpha", WolframAlphaAdapter.adapter (WolframAlphaAdapter.__init__ w));
     ("math_computation", MathComputationAdapter.adapter);
     ("calendar_simulator", CalendarAdapter.adapter);
     ("task_simulator", TaskAdapter.adapter);
     ("data_analysis", DataAnalysisAdapter.adapter);
     ("accounting_simulator", AccountingAdapter.adapter);
     ("agriculture_simulator", AgricultureAdapter.adapter);
     ("project_simulator", ProjectManagementAdapter.adapter);
     ("relationship_analyzer", RelationshipAdapter.adapter)].

Definition _initialize_services (self : Manager) (w : World) : Manager * World :=
  _check_connectivity
    {| service_registry := shipped_registry w;
       cache := cache self;
       cache_ttl := cache_ttl self;
       offline_mode := offline_mode self;
       api_health := api_health self |} w.

Definition __init__ (w : World) : Manager * World :=
  _initialize_services
    {| service_registry := ∅;
       cache := ∅;
       cache_ttl := 300;
       offline_mode := false;
       api_health := ∅ |} w.

(** ** [DefendIQSecurity._encrypt_data] *)

Module DefendIQSecurity.

(** The object: the three attributes [__init__] sets. *)
Record t : Type := {
  security_levels : pyval;
  threat_detection : pyval;
  encryption_engine : pyval
}.

(** [v[key]] for a str key. *)
Definition py_getitem (v : pyval) (key : string) : outcome pyval :=
  match v with
  | PDict d =>
      match dict_lookup d key with
      | Some x => Ok x
      | None => Raise {| exn_cls := KeyError; exn_str := "'" +:+ key +:+ "'" |}
      end
  | _ => Raise {| exn_cls := TypeError;
                  exn_str := "'" +:+ type_name v +:+ "' object is not subscriptable" |}
  end.

(** What [json.dumps] accepts: everything but [bytes], at any depth. *)
Fixpoint json_serializable (v : pyval) : bool :=
  match v with
  | PBytes _ => false
  | PList l => forallb json_serializable l
  | PDict d => forallb (fun kv => json_serializable (snd kv)) d
  | _ => true
  end.


Section Libraries.

(** The library functions the method calls, as parameters:
    [Fernet.generate_key()] as a function of the 32 random bytes it
    draws; [Fernet(key).encrypt(data)] as a function of the key, the
    clock reading and the 16 random bytes it draws, and the data; what
    [json.dumps] does for a value without [bytes]; what [str.encode]
    does for a text. *)
Variable Fernet_generate_key : string -> string.
Variable Fernet_encrypt : string -> Q -> string -> string -> string.
Variable json_text : pyval -> lib_result.
Variable str_encode : string -> lib_result.

(** [json.dumps(v)]: [TypeError] for a value that holds [bytes]; otherwise
    what the library does.  When a value is refused for more than one
    reason, the class that is raised depends on the order of the traversal;
    [_encrypt_data] cannot tell, its handler binds no name. *)
Definition json_dumps (v : pyval) : outcome string :=
  if json_serializable v then lib_outcome (json_text v)
  else Raise {| exn_cls := TypeError;
                exn_str := "Object of type bytes is not JSON serializable" |}.

(** The text that is encrypted: [json.dumps(data)] for a dict, [str(data)]
    otherwise. *)
Definition data_str (data : pyval) (w : World) : outcome string :=
  if is_dict data then json_dumps data else format_value w data.

(** [data_str.encode()], the bytes handed to [fernet.encrypt]. *)
Definition plain_bytes (data : pyval) (w : World) : outcome string :=
  match data_str data w with
  | Raise e => Raise e
  | Ok text => lib_outcome (str_encode text)
  end.

Definition encrypted_result (token : string) : pyval :=
  PDict [("encrypted", PBool true);
         ("data", PStr token);
         ("key_id", PStr "env_derived")].

Definition unencrypted_fallback (data : pyval) : pyval :=
  PDict [("encrypted", PBool false);
         ("data", data);
         ("warning", PStr "encryption_unavailable")].

(** The [try] block: the key that was generated, with the outcome. *)
Definition encrypt_body (data : pyval) (w : World) : string * outcome pyval * World :=
  let key := Fernet_generate_key (os_urandom w (tick w)) in
  let w1 := advance w in
  match plain_bytes data w1 with
  | Raise e => (key, Raise e, w1)
  | Ok plain =>
      let now := time_time w1 (tick w1) in
      let w2 := advance w1 in
      let iv := os_urandom w2 (tick w2) in
      let w3 := advance w2 in
      (key, Ok (encrypted_result (Fernet_encrypt key now iv plain)), w3)
  end.

(** The method returns its result; it assigns no attribute, so the
    object comes back as it was. *)
Definition _encrypt_data (self : t) (data security_config : pyval) (w : World)
  : outcome pyval * t * World :=
  match py_getitem security_config "encryption" with
  | Raise e => (Raise e, self, w)
  | Ok enabled =>
      if negb (truthy enabled) || negb (cryptography_available w) then (Ok data, self, w)
      else
        match encrypt_body data w with
        | (_, Ok result, w1) => (Ok result, self, w1)
        | (_, Raise e, w1) =>
            if is_Exception e then (Ok (unencrypted_fallback data), self, w1)
            else (Raise e, self, w1)
        end
  end.

End Libraries.

End DefendIQSecurity.

(** ** Notions the properties are stated with *)

Definition returned (x : outcome pyobj * Manager * Runtime) : outcome pyobj := fst (fst x).
Definition manager_after (x : outcome pyobj * Manager * Runtime) : Manager := snd (fst x).
Definition runtime_after (x : outcome pyobj * Manager * Runtime) : Runtime := snd x.

(** A result reports success: [result.get('success')] is true. *)
Definition reports_success (v : pyval) : bool :=
  match py_get v "success" PNone with
  | Ok s => truthy s
  | Raise _ => false
  end.

(** The age the cache check computes for an entry:
    [time.time() - cached_data['timestamp']]. *)
Definition cache_age (rt : Runtime) (e : CacheEntry) : Q :=
  time_time (world rt) (tick (world rt)) - timestamp e.

(** The states of a manager: built by [__init__], then used through
    [make_api_call], each call in whatever run-time state it finds. *)
Inductive reachable : Manager -> Prop :=
  | reach_init (w : World) : reachable (fst (__init__ w))
  | reach_call (self : Manager) (rt : Runtime) (service_name endpoint : string)
      (params : pyval) (cache_key : option string) :
      reachable self ->
      reachable (manager_after (make_api_call self rt service_name endpoint params cache_key)).

(** The invariant of the reachable states: the shipped registry, the
    five-minute limit, and under every (non-empty) key a result that reports
    success. *)
Definition manager_inv (self : Manager) : Prop :=
  (exists w, service_registry self = shipped_registry w) /\
  cache_ttl self = 300%Q /\
  forall k e, cache self !! k = Some e ->
              k <> "" /\ reports_success (obj_val (data e)) = true.

(** The exception, if any, that the [try] block of [make_api_call] raises:
    by the adapter method, or by the cache store after it. *)
Definition adapter_branch_exception (self : Manager) (rt : Runtime) (adapter : Adapter)
    (endpoint : string) (params : pyval) (cache_key : option string) : option exn :=
  match invoke adapter (chosen_method self) endpoint params (world rt) with
  | (Raise e, _) => Some e
  | (Ok v, _) =>
      if truthy_key cache_key then
        match py_get v "success" PNone with
        | Raise e => Some e
        | Ok _ => None
        end
      else None
  end.

(** An adapter that answers with dicts and fails with instances of
    [Exception] only. *)
Definition well_behaved (a : Adapter) : Prop :=
  forall (m : method) (endpoint : string) (params : pyval) (w : World),
    match fst (invoke a m endpoint params w) with
    | Ok v => is_dict v = true
    | Raise e => is_Exception e = true
    end.

(** The world with another network behind [requests.get]. *)
Definition with_requests_get (w : World)
    (f : nat -> string -> pyval -> http_result) : World :=
  {| requests_available := requests_available w;
     cryptography_available := cryptography_available w;
     time_time := time_time w;
     datetime_now := datetime_now w;
     requests_get := f;
     os_urandom := os_urandom w;
     os_getenv := os_getenv w;
     builtin_str := builtin_str w;
     tick := tick w |}.

Definition runtime_with_requests_get (rt : Runtime)
    (f : nat -> string -> pyval -> http_result) : Runtime :=
  with_world rt (with_requests_get (world rt) f).

(** A method that never consults the network: with another network it
    answers the same and leaves the same world, but for the network. *)
Definition network_free (g : string -> pyval -> World -> outcome pyval * World) : Prop :=
  forall (endpoint : string) (params : pyval) (w : World)
         (f : nat -> string -> pyval -> http_result),
    g endpoint params (with_requests_get w f)
    = (fst (g endpoint params w), with_requests_get (snd (g endpoint params w)) f).

(** The keys of the dict that [_initialize_services] builds. *)
Definition shipped_names : list string :=
  ["wolfram_alpha"; "math_computation"; "calendar_simulator"; "task_simulator";
   "data_analysis"; "accounting_simulator"; "agriculture_simulator";
   "project_simulator"; "relationship_analyzer"].

(** The strings that the four calculators of [WolframAlphaAdapter] return. *)
Definition offline_answers : list string :=
  ["2x"; "cos(x)"; "-sin(x)"; "e^x";
   "x^2 + C"; "sin(x) + C"; "-cos(x) + C";
   "x = 4"; "x = 7"; "x = 4 or x = -4";
   "4"; "40"; "5"].

(** ** Sample runs *)

Module Demo.

(** A machine without [requests] and without an API key, whose clock
    stands still at 1000 s. *)
Definition still_world : World :=
  {| requests_available := false;
     cryptography_available := true;
     time_time := fun _ => 1000%Q;
     datetime_now := fun _ => {| isoformat := "2025-01-01T00:00:00";
                                 strftime_ymd := "2025-01-01" |};
     requests_get := fun _ _ _ => HttpError "no route to host";
     os_urandom := fun _ => "0123456789abcdef";
     os_getenv := fun _ => None;
     builtin_str := fun v => Text (type_name v);
     tick := 0 |}.

(** The same machine an hour later. *)
Definition later_world : World :=
  {| requests_available := false;
     cryptography_available := true;
     time_time := fun _ => 4600%Q;
     datetime_now := fun _ => {| isoformat := "2025-01-01T01:00:00";
                                 strftime_ymd := "2025-01-01" |};
     requests_get := fun _ _ _ => HttpError "no route to host";
     os_urandom := fun _ => "0123456789abcdef";
     os_getenv := fun _ => None;
     builtin_str := fun v => Text (type_name v);
     tick := 7 |}.

(** A machine with [requests] and a reachable network. *)
Definition online_world : World :=
  {| requests_available := true;
     cryptography_available := true;
     time_time := fun _ => 1000%Q;
     datetime_now := fun _ => {| isoformat := "2025-01-01T00:00:00";
                                 strftime_ymd := "2025-01-01" |};
     requests_get := fun _ _ _ => HttpResponse {| status_code := 200; json_body := None |};
     os_urandom := fun _ => "0123456789abcdef";
     os_getenv := fun _ => None;
     builtin_str := fun v => Text (type_name v);
     tick := 0 |}.

Definition fresh_manager : Manager := fst (__init__ still_world).

Definition start : Runtime :=
  {| world := snd (__init__ still_world); next_id := 0; calls := [] |}.

(** [make_api_call('math_computation', 'status', {}, cache_key='k')] *)
Definition first_call : outcome pyobj * Manager * Runtime :=
  make_api_call fresh_manager start "math_computation" "status" (PDict []) (Some "k").

Definition warm_manager : Manager := manager_after first_call.
Definition warm_runtime : Runtime := runtime_after first_call.

(** The run-time state an hour after the first call. *)
Definition late_runtime : Runtime := with_world warm_runtime later_world.

Definition cached_entry : CacheEntry :=
  {| data := {| obj_id := 0;
                obj_val := PDict [("success", PBool true);
                                  ("data", PDict [("message",
                                                   PStr "Offline math computation available")]);
                                  ("source", PStr "offline_math")] |};
     timestamp := 1000%Q |}.

(** The ['confidential'] entry of [security_levels]. *)
Definition confidential : pyval :=
  PDict [("encryption", PBool true);
         ("authentication", PStr "multi_factor");
         ("logging", PStr "detailed");
         ("retention", PStr "1 year")].

Definition security_object : DefendIQSecurity.t :=
  {| DefendIQSecurity.security_levels := PDict [("confidential", confidential)];
     DefendIQSecurity.threat_detection := PNone;
     DefendIQSecurity.encryption_engine := PNone |}.

(** Stand-ins for the library functions, enough to run the method. *)
Definition toy_generate_key (random : string) : string := "key:" +:+ random.
Definition toy_encrypt (key : string) (now : Q) (iv text : string) : string :=
  "token(" +:+ iv +:+ "," +:+ text +:+ ")".
Definition toy_json_text (v : pyval) : lib_result := Text "{...}".
Definition toy_encode (text : string) : lib_result := Text text.


(** The first machine with the limit that [str] puts on the digits of an
    int. *)
Definition digit_limit_str (v : pyval) : lib_result :=
  match v with
  | PInt n =>
      if (Z.abs n <? 10 ^ 4300)%Z then Text (type_name v)
      else Fails "ValueError"
                 "Exceeds the limit (4300 digits) for integer string conversion"
  | _ => Text (type_name v)
  end.

Definition digit_limit_world : World :=
  {| requests_available := false;
     cryptography_available := true;
     time_time := fun _ => 1000%Q;
     datetime_now := fun _ => {| isoformat := "2025-01-01T00:00:00";
                                 strftime_ymd := "2025-01-01" |};
     requests_get := fun _ _ _ => HttpError "no route to host";
     os_urandom := fun _ => "0123456789abcdef";
     os_getenv := fun _ => None;
     builtin_str := digit_limit_str;
     tick := 0 |}.

Definition huge_int : pyval := PInt (10 ^ 4300).

(** A conversation that carries a [bytes] attachment. *)
Definition attachment : pyval :=
  PDict [("text", PStr "hello"); ("blob", PBytes "raw")].

(** The ['public'] entry of [security_levels]. *)
Definition public : pyval :=
  PDict [("encryption", PBool false);
         ("authentication", PStr "basic");
         ("logging", PStr "minimal");
         ("retention", PStr "30 days")].

(** A Wolfram adapter built with an API key in the environment. *)
Definition keyed_wolfram : WolframAlphaAdapter.t :=
  {| WolframAlphaAdapter.api_key := Some "demo-key";
     WolframAlphaAdapter.base_url := "http://api.wolframalpha.com/v1" |}.

(** A machine whose network answers every request with status 403 and a
    JSON object that has no ['result']. *)
Definition refusing_world : World :=
  {| requests_available := true;
     cryptography_available := true;
     time_time := fun _ => 1000%Q;
     datetime_now := fun _ => {| isoformat := "2025-01-01T00:00:00";
                                 strftime_ymd := "2025-01-01" |};
     requests_get := fun _ _ _ =>
       HttpResponse {| status_code := 403;
                       json_body := Some (PDict [("error", PStr "Invalid appid")]) |};
     os_urandom := fun _ => "0123456789abcdef";
     os_getenv := fun _ => Some "demo-key";
     builtin_str := fun v => Text (type_name v);
     tick := 0 |}.

End Demo.

(** ** Basic facts about the cache check and the handler *)

Lemma truthy_key_Some (k : string) : truthy_key (Some k) = true <-> k <> "".
Proof.
  unfold truthy_key. destruct (String.eqb_spec k ""); simpl; split; congruence.
Qed.

Lemma cache_check_hit (self : Manager) (rt : Runtime) (k : string) (e : CacheEntry) :
  k <> "" ->
  cache self !! k = Some e ->
  (cache_age rt e < cache_ttl self)%Q ->
  cache_check self rt (Some k) = (Some (data e), with_world rt (advance (world rt))).
Proof.
  intros Hk He Hage. unfold cache_check.
  apply truthy_key_Some in Hk. rewrite Hk, He. simpl.
  unfold cache_age in Hage.
  destruct (Qlt_le_dec _ _) as [_ | Hle]; [reflexivity |].
  exfalso. exact (Qlt_not_le _ _ Hage Hle).
Qed.

Lemma cache_check_stale (self : Manager) (rt : Runtime) (k : string) (e : CacheEntry) :
  k <> "" ->
  cache self !! k = Some e ->
  (cache_ttl self <= cache_age rt e)%Q ->
  cache_check self rt (Some k) = (None, with_world rt (advance (world rt))).
Proof.
  intros Hk He Hage. unfold cache_check.
  apply truthy_key_Some in Hk. rewrite Hk, He. simpl.
  unfold cache_age in Hage.
  destruct (Qlt_le_dec _ _) as [Hlt | _]; [| reflexivity].
  exfalso. exact (Qlt_not_le _ _ Hlt Hage).
Qed.

(** What a hit is: a true key, its entry, and an age below the limit. *)
Lemma cache_check_Some (self : Manager) (rt rt1 : Runtime) (ck : option string) (r : pyobj) :
  cache_check self rt ck = (Some r, rt1) ->
  exists k e, ck = Some k /\ k <> "" /\ cache self !! k = Some e /\ r = data e /\
              (cache_age rt e < cache_ttl self)%Q /\
              rt1 = with_world rt (advance (world rt)).
Proof.
  unfold cache_check. intros H.
  destruct ck as [k |]; [| discriminate].
  destruct (truthy_key (Some k)) eqn:Hk; [| discriminate].
  destruct (cache self !! k) as [e |] eqn:He; [| discriminate].
  simpl in H. destruct (Qlt_le_dec _ _) as [Hlt | _]; [| discriminate].
  injection H as <- <-. exists k, e.
  apply truthy_key_Some in Hk. repeat split; auto.
Qed.

(** A miss with an entry under a true key means the entry is stale. *)
Lemma cache_check_None (self : Manager) (rt rt1 : Runtime) (ck : option string) :
  cache_check self rt ck = (None, rt1) ->
  forall k e, ck = Some k -> k <> "" -> cache self !! k = Some e ->
              (cache_ttl self <= cache_age rt e)%Q.
Proof.
  unfold cache_check. intros H k e -> Hk He.
  apply truthy_key_Some in Hk. rewrite Hk, He in H. simpl in H.
  destruct (Qlt_le_dec _ _) as [_ | Hle]; [discriminate | exact Hle].
Qed.

(** The check reads the clock at most; it creates no object and calls no
    adapter. *)
Lemma cache_check_runtime (self : Manager) (rt : Runtime) (ck : option string) :
  next_id (snd (cache_check self rt ck)) = next_id rt /\
  calls (snd (cache_check self rt ck)) = calls rt.
Proof.
  unfold cache_check.
  destruct ck as [k |]; [| auto].
  destruct (truthy_key (Some k)); [| auto].
  destruct (cache self !! k); [| auto].
  simpl. destruct (Qlt_le_dec _ _); auto.
Qed.

Lemma api_call_failed_caught (self : Manager) (rt : Runtime) (e : exn) :
  is_Exception e = true ->
  api_call_failed self rt e =
    (Ok {| obj_id := next_id rt;
           obj_val := error_envelope ("API call failed: " +:+ exn_str e)
                        (isoformat (datetime_now (world rt) (tick (world rt))))
                        (offline_mode self) |},
     self,
     {| world := advance (world rt); next_id := S (next_id rt); calls := calls rt |}).
Proof. intros He. unfold api_call_failed. rewrite He. reflexivity. Qed.

Lemma api_call_failed_manager (self : Manager) (rt : Runtime) (e : exn) :
  manager_after (api_call_failed self rt e) = self.
Proof. unfold api_call_failed. destruct (is_Exception e); reflexivity. Qed.

Lemma api_call_failed_calls (self : Manager) (rt : Runtime) (e : exn) :
  calls (runtime_after (api_call_failed self rt e)) = calls rt.
Proof. unfold api_call_failed. destruct (is_Exception e); reflexivity. Qed.

Lemma no_attribute_is_Exception (v : pyval) (attr : string) :
  is_Exception (no_attribute v attr) = true.
Proof. reflexivity. Qed.

Lemma py_get_raises (v : pyval) (key : string) (dflt : pyval) (e : exn) :
  py_get v key dflt = Raise e -> is_Exception e = true /\ is_dict v = false.
Proof. destruct v; simpl; intros H; try discriminate; injection H as <-; auto. Qed.

Lemma py_get_dict (v : pyval) (key : string) (dflt : pyval) :
  is_dict v = true -> exists x, py_get v key dflt = Ok x.
Proof. destruct v; simpl; try discriminate. eauto. Qed.

(** ** What a call does to the manager *)

(** The store step either leaves the manager alone or inserts the returned
    object under the (true) key, and then the object reports success. *)
Lemma store_and_return_manager (self : Manager) (rt : Runtime) (result : pyobj)
    (ck : option string) :
  let x := store_and_return self rt result ck in
  manager_after x = self \/
  exists k, ck = Some k /\ k <> "" /\
    reports_success (obj_val result) = true /\
    x = (Ok result,
         set_cache self (<[k := {| data := result;
                                   timestamp := time_time (world rt) (tick (world rt)) |}]>
                           (cache self)),
         with_world rt (advance (world rt))).
Proof.
  unfold store_and_return, reports_success. simpl.
  destruct (truthy_key ck) eqn:Hk; [| left; reflexivity].
  destruct (py_get (obj_val result) "success" PNone) as [s | e] eqn:Hs.
  - destruct (truthy s) eqn:Ht; [| left; reflexivity].
    right. destruct ck as [k |]; [| discriminate].
    exists k. apply truthy_key_Some in Hk. repeat split; auto.
  - left. apply api_call_failed_manager.
Qed.

Lemma dispatch_manager (self : Manager) (rt : Runtime) (adapter : Adapter)
    (s ep : string) (p : pyval) (ck : option string) :
  let x := dispatch self rt adapter s ep p ck in
  manager_after x = self \/
  exists k result now, ck = Some k /\ k <> "" /\
    reports_success (obj_val result) = true /\
    returned x = Ok result /\
    manager_after x =
      set_cache self (<[k := {| data := result; timestamp := now |}]> (cache self)).
Proof.
  unfold dispatch, after_adapter. simpl.
  destruct (invoke adapter (chosen_method self) ep p _) as [[v | e] w].
  - simpl.
    match goal with |- context [store_and_return self ?r ?o ck] =>
      destruct (store_and_return_manager self r o ck) as [H | (k & Hk & Hne & Hs & H)]
    end.
    + left. exact H.
    + right. do 3 eexists. rewrite H. repeat split; eauto.
  - left. apply api_call_failed_manager.
Qed.

Lemma make_api_call_manager (self : Manager) (rt : Runtime)
    (s ep : string) (p : pyval) (ck : option string) :
  let x := make_api_call self rt s ep p ck in
  manager_after x = self \/
  exists k result now, ck = Some k /\ k <> "" /\
    reports_success (obj_val result) = true /\
    returned x = Ok result /\
    fst (cache_check self rt ck) = None /\
    manager_after x =
      set_cache self (<[k := {| data := result; timestamp := now |}]> (cache self)).
Proof.
  unfold make_api_call. simpl.
  destruct (service_registry self !! s) as [adapter |]; [| left; reflexivity].
  destruct (cache_check self rt ck) as [[cached |] rt1] eqn:Hc; [left; reflexivity |].
  destruct (dispatch_manager self rt1 adapter s ep p ck)
    as [H | (k & result & now & Hk & Hne & Hs & Hr & Hm)].
  - left. exact H.
  - right. exists k, result, now. repeat split; auto.
Qed.

Lemma check_connectivity_frame (self : Manager) (w : World) :
  let self' := fst (_check_connectivity self w) in
  service_registry self' = service_registry self /\
  cache self' = cache self /\
  cache_ttl self' = cache_ttl self /\
  api_health self' = api_health self.
Proof.
  unfold _check_connectivity. simpl.
  destruct (negb (requests_available w)); [auto |].
  destruct (requests_get_call _ _ _) as [[r | e] w1]; auto.
Qed.

Lemma init_inv (w : World) : manager_inv (fst (__init__ w)).
Proof.
  unfold __init__, _initialize_services.
  match goal with |- manager_inv (fst (_check_connectivity ?m w)) =>
    destruct (check_connectivity_frame m w) as (Hr & Hc & Ht & _)
  end.
  simpl in *. split; [| split].
  - exists w. exact Hr.
  - exact Ht.
  - intros k e He. rewrite Hc, lookup_empty in He. discriminate.
Qed.

Lemma reachable_inv (self : Manager) : reachable self -> manager_inv self.
Proof.
  induction 1 as [w | self rt s ep p ck Hreach IH].
  - apply init_inv.
  - destruct (make_api_call_manager self rt s ep p ck)
      as [H | (k & result & now & Hk & Hne & Hs & _ & _ & H)]; simpl in H; rewrite H.
    + exact IH.
    + destruct IH as (Hreg & Httl & Hcache). split; [| split]; simpl; auto.
      intros k' e' He'.
      apply lookup_insert_Some in He' as [[<- <-] | [_ He']].
      * split; assumption.
      * apply Hcache in He'. exact He'.
Qed.

(** ** The unknown service *)

(** C3.  A service name that the registry does not hold gives the standard
    error envelope: a new dict with ['success'] [False], the message
    ["Service <name> not available"] under ['error'], a ['timestamp'] and
    the current ['offline_mode'].  No adapter is invoked and the manager,
    its cache included, stays as it was. *)
Theorem unregistered_service_error_envelope (self : Manager) (rt : Runtime)
    (service_name endpoint : string) (params : pyval) (cache_key : option string) :
  service_registry self !! service_name = None ->
  exists r,
    returned (make_api_call self rt service_name endpoint params cache_key) = Ok r /\
    obj_val r =
      PDict [("success", PBool false);
             ("error", PStr ("Service " +:+ service_name +:+ " not available"));
             ("timestamp", PStr (isoformat (datetime_now (world rt) (tick (world rt)))));
             ("offline_mode", PBool (offline_mode self))] /\
    calls (runtime_after (make_api_call self rt service_name endpoint params cache_key))
      = calls rt /\
    manager_after (make_api_call self rt service_name endpoint params cache_key) = self /\
    cache (manager_after (make_api_call self rt service_name endpoint params cache_key))
      = cache self.
Proof.
  intros Hreg. unfold make_api_call. rewrite Hreg. simpl.
  eexists. repeat split.
Qed.

Lemma unregistered_service_error_envelope_witness :
  service_registry Demo.warm_manager !! "nope" = None /\
  exists r,
    returned (make_api_call Demo.warm_manager Demo.warm_runtime "nope" "status" PNone
                (Some "k")) = Ok r /\
    dict_lookup (match obj_val r with PDict d => d | _ => [] end) "success"
      = Some (PBool false).
Proof.
  assert (H : service_registry Demo.warm_manager !! "nope" = None)
    by (vm_compute; reflexivity).
  split; [exact H |].
  destruct (unregistered_service_error_envelope Demo.warm_manager Demo.warm_runtime
              "nope" "status" PNone (Some "k") H) as (r & Hr & Hv & _).
  exists r. split; [exact Hr |]. rewrite Hv. reflexivity.
Defined.

(** ** The cache hit *)

(** C1, as stated, fails: with an unknown service name the fresh entry under
    the key is not returned; the call answers with the error envelope. *)
Lemma cache_hit_unknown_service_counterexample :
  cache Demo.warm_manager !! "k" = Some Demo.cached_entry /\
  (cache_age Demo.warm_runtime Demo.cached_entry < 300)%Q /\
  returned (make_api_call Demo.warm_manager Demo.warm_runtime "nope" "status" PNone
              (Some "k"))
    = Ok {| obj_id := 1;
            obj_val := error_envelope "Service nope not available"
                         "2025-01-01T00:00:00" true |} /\
  returned (make_api_call Demo.warm_manager Demo.warm_runtime "nope" "status" PNone
              (Some "k"))
    <> Ok (data Demo.cached_entry).
Proof.
  split; [vm_compute; reflexivity |].
  split; [vm_compute; reflexivity |].
  split; [vm_compute; reflexivity |].
  vm_compute. discriminate.
Qed.

(** C1, amended.  In a reachable state, a call with a registered service
    name and a cache key whose entry is less than 300 seconds old returns
    the stored result object itself; no adapter method is invoked, no object
    is created and the manager stays as it was. *)
Theorem cache_hit_returns_stored_object (self : Manager) (rt : Runtime)
    (service_name endpoint : string) (params : pyval) (k : string)
    (adapter : Adapter) (e : CacheEntry) :
  reachable self ->
  service_registry self !! service_name = Some adapter ->
  cache self !! k = Some e ->
  (cache_age rt e < 300)%Q ->
  returned (make_api_call self rt service_name endpoint params (Some k)) = Ok (data e) /\
  calls (runtime_after (make_api_call self rt service_name endpoint params (Some k)))
    = calls rt /\
  next_id (runtime_after (make_api_call self rt service_name endpoint params (Some k)))
    = next_id rt /\
  manager_after (make_api_call self rt service_name endpoint params (Some k)) = self.
Proof.
  intros Hreach Hreg He Hage.
  destruct (reachable_inv self Hreach) as (_ & Httl & Hcache).
  destruct (Hcache k e He) as [Hk _].
  unfold make_api_call. rewrite Hreg.
  rewrite (cache_check_hit self rt k e Hk He) by (rewrite Httl; exact Hage).
  repeat split.
Qed.

Lemma cache_hit_returns_stored_object_witness :
  reachable Demo.warm_manager /\
  service_registry Demo.warm_manager !! "task_simulator" = Some TaskAdapter.adapter /\
  cache Demo.warm_manager !! "k" = Some Demo.cached_entry /\
  (cache_age Demo.warm_runtime Demo.cached_entry < 300)%Q /\
  returned (make_api_call Demo.warm_manager Demo.warm_runtime "task_simulator" "list"
              (PDict []) (Some "k")) = Ok (data Demo.cached_entry).
Proof.
  assert (H1 : reachable Demo.warm_manager)
    by (unfold Demo.warm_manager, Demo.first_call; apply reach_call, reach_init).
  assert (H2 : service_registry Demo.warm_manager !! "task_simulator"
               = Some TaskAdapter.adapter) by (vm_compute; reflexivity).
  assert (H3 : cache Demo.warm_manager !! "k" = Some Demo.cached_entry)
    by (vm_compute; reflexivity).
  assert (H4 : (cache_age Demo.warm_runtime Demo.cached_entry < 300)%Q)
    by (vm_compute; reflexivity).
  repeat (split; [assumption |]).
  exact (proj1 (cache_hit_returns_stored_object Demo.warm_manager Demo.warm_runtime
                  "task_simulator" "list" (PDict []) "k" TaskAdapter.adapter
                  Demo.cached_entry H1 H2 H3 H4)).
Defined.

(** ** The frame of a call *)

(** C10.  A call changes nothing of the manager but the cache:
    [service_registry], [cache_ttl], [offline_mode] and [api_health] are
    the same after it, and so is every cache entry under another key.  An
    entry is never deleted: it stays, or, when it is stale and sits under
    the key of the call, it is replaced by the returned result, which
    reports success. *)
Theorem make_api_call_frame (self : Manager) (rt : Runtime)
    (service_name endpoint : string) (params : pyval) (cache_key : option string) :
  service_registry (manager_after (make_api_call self rt service_name endpoint params cache_key))
    = service_registry self /\
  cache_ttl (manager_after (make_api_call self rt service_name endpoint params cache_key))
    = cache_ttl self /\
  offline_mode (manager_after (make_api_call self rt service_name endpoint params cache_key))
    = offline_mode self /\
  api_health (manager_after (make_api_call self rt service_name endpoint params cache_key))
    = api_health self /\
  (forall k, cache_key <> Some k ->
     cache (manager_after (make_api_call self rt service_name endpoint params cache_key)) !! k
       = cache self !! k) /\
  (forall k e, cache self !! k = Some e ->
     cache (manager_after (make_api_call self rt service_name endpoint params cache_key)) !! k
       = Some e \/
     (cache_key = Some k /\
      (cache_ttl self <= cache_age rt e)%Q /\
      exists e',
        cache (manager_after (make_api_call self rt service_name endpoint params cache_key)) !! k
          = Some e' /\
        returned (make_api_call self rt service_name endpoint params cache_key)
          = Ok (data e') /\
        reports_success (obj_val (data e')) = true)).
Proof.
  destruct (make_api_call_manager self rt service_name endpoint params cache_key)
    as [H | (k0 & result & now & Hk & Hne & Hs & Hr & Hc & H)]; simpl in H; rewrite H.
  - repeat split; auto.
  - simpl. repeat split; auto.
    + intros k Hk'. apply lookup_insert_ne. congruence.
    + intros k e He. destruct (decide (k0 = k)) as [-> | Hneq].
      * right. split; [exact Hk |]. split.
        -- destruct (cache_check self rt cache_key) as [o rt1] eqn:Hcc.
           simpl in Hc. subst o.
           exact (cache_check_None self rt rt1 cache_key Hcc k e Hk Hne He).
        -- eexists. rewrite lookup_insert_eq. split; [reflexivity |].
           simpl. split; [exact Hr | exact Hs].
      * left. rewrite lookup_insert_ne by exact Hneq. exact He.
Qed.

(** ** What the cache holds *)

(** C6, as stated, fails: the empty string is a cache key that was
    supplied, the result reports success, and nothing is stored. *)
Lemma empty_cache_key_counterexample :
  (exists r,
     returned (make_api_call Demo.fresh_manager Demo.start "math_computation" "status"
                 (PDict []) (Some "")) = Ok r /\
     reports_success (obj_val r) = true) /\
  cache (manager_after (make_api_call Demo.fresh_manager Demo.start "math_computation"
                          "status" (PDict []) (Some ""))) !! "" = None.
Proof.
  split.
  - eexists. split; vm_compute; reflexivity.
  - vm_compute. reflexivity.
Qed.

(** C6, amended.  A call that reaches the adapter and returns a result
    stores it if and only if the cache key is a non-empty string and the
    result reports success.  Consequently, in every reachable state every
    cache entry holds a ['timestamp'] and a ['data'] object that reports
    success, and a cache hit returns such an object, never a failure
    envelope. *)
Theorem cache_stores_successes_only (self : Manager) (rt : Runtime)
    (service_name endpoint : string) (params : pyval) (cache_key : option string)
    (adapter : Adapter) :
  reachable self ->
  service_registry self !! service_name = Some adapter ->
  (forall k e, cache self !! k = Some e -> reports_success (obj_val (data e)) = true) /\
  (forall r, fst (cache_check self rt cache_key) = Some r ->
     returned (make_api_call self rt service_name endpoint params cache_key) = Ok r /\
     reports_success (obj_val r) = true /\
     (forall msg ts off, obj_val r <> error_envelope msg ts off)) /\
  (fst (cache_check self rt cache_key) = None ->
   forall result,
     returned (make_api_call self rt service_name endpoint params cache_key) = Ok result ->
     (truthy_key cache_key = true /\ reports_success (obj_val result) = true ->
      exists now,
        manager_after (make_api_call self rt service_name endpoint params cache_key)
          = set_cache self
              (<[default "" cache_key := {| data := result; timestamp := now |}]>
                 (cache self))) /\
     (truthy_key cache_key = false \/ reports_success (obj_val result) = false ->
      manager_after (make_api_call self rt service_name endpoint params cache_key) = self)).
Proof.
  intros Hreach Hreg.
  destruct (reachable_inv self Hreach) as (_ & _ & Hcache).
  split; [| split].
  - intros k e He. exact (proj2 (Hcache k e He)).
  - intros r Hr. unfold make_api_call. rewrite Hreg.
    destruct (cache_check self rt cache_key) as [o rt1] eqn:Hcc. simpl in Hr. subst o.
    destruct (cache_check_Some self rt rt1 cache_key r Hcc)
      as (k & e & _ & _ & He & -> & _).
    destruct (Hcache k e He) as [_ Hs].
    split; [reflexivity |]. split; [exact Hs |].
    intros msg ts off Heq. rewrite Heq in Hs. discriminate.
  - intros Hmiss result. unfold make_api_call. rewrite Hreg.
    destruct (cache_check self rt cache_key) as [o rt1] eqn:Hcc. simpl in Hmiss. subst o.
    unfold dispatch, after_adapter.
    destruct (invoke adapter (chosen_method self) endpoint params _) as [[v | e] w].
    + simpl. unfold store_and_return, reports_success. simpl.
      destruct (truthy_key cache_key) eqn:Hk.
      * destruct (py_get v "success" PNone) as [s | e] eqn:Hs.
        -- destruct (truthy s) eqn:Ht; simpl; intros Hret; injection Hret as <-; simpl;
             rewrite Hs, Ht.
           ++ split; [intros _; eexists; reflexivity |].
              intros [? | ?]; discriminate.
           ++ split; [intros [_ ?]; discriminate | reflexivity].
        -- intros Hret. split.
           ++ intros [_ Hrs].
              unfold api_call_failed in Hret.
              destruct (is_Exception e); simpl in Hret; [| discriminate].
              injection Hret as <-. simpl in Hrs. discriminate.
           ++ intros _. apply api_call_failed_manager.
      * simpl. intros _. split; [intros [? _]; discriminate | reflexivity].
    + simpl. intros Hret. split.
      * intros [_ Hrs].
        unfold api_call_failed in Hret.
        destruct (is_Exception e); simpl in Hret; [| discriminate].
        injection Hret as <-. simpl in Hrs. discriminate.
      * intros _. apply api_call_failed_manager.
Qed.

Lemma cache_stores_successes_only_witness :
  reachable Demo.warm_manager /\
  service_registry Demo.warm_manager !! "task_simulator" = Some TaskAdapter.adapter /\
  reports_success (obj_val (data Demo.cached_entry)) = true.
Proof.
  assert (H1 : reachable Demo.warm_manager)
    by (unfold Demo.warm_manager, Demo.first_call; apply reach_call, reach_init).
  assert (H2 : service_registry Demo.warm_manager !! "task_simulator"
               = Some TaskAdapter.adapter) by (vm_compute; reflexivity).
  split; [exact H1 |]. split; [exact H2 |].
  refine (proj1 (cache_stores_successes_only Demo.warm_manager Demo.warm_runtime
                   "task_simulator" "list" (PDict []) (Some "k") TaskAdapter.adapter
                   H1 H2) "k" Demo.cached_entry _).
  vm_compute. reflexivity.
Defined.

(** ** The shipped adapters *)

Lemma lib_outcome_raises (r : lib_result) (e : exn) :
  lib_outcome r = Raise e -> is_Exception e = true.
Proof. destruct r; simpl; intros H; [discriminate |]. injection H as <-. reflexivity. Qed.

Lemma format_value_raises (w : World) (v : pyval) (e : exn) :
  format_value w v = Raise e -> is_Exception e = true.
Proof.
  destruct v; simpl; try apply lib_outcome_raises. discriminate.
Qed.

Lemma wolfram_offline_cases (self : WolframAlphaAdapter.t) (ep : string) (p : pyval)
    (w : World) :
  match fst (WolframAlphaAdapter.get_offline_response self ep p w) with
  | Ok v => is_dict v = true
  | Raise e => is_Exception e = true
  end.
Proof.
  unfold WolframAlphaAdapter.get_offline_response.
  destruct (py_get p "query" (PStr "")) as [q | e] eqn:Hq.
  - destruct (py_lower q) as [[query | query] | e] eqn:Hl.
    + destruct (WolframAlphaAdapter.first_result _ query); reflexivity.
    + reflexivity.
    + destruct q; simpl in Hl; try discriminate; injection Hl as <-; reflexivity.
  - simpl. exact (proj1 (py_get_raises _ _ _ _ Hq)).
Qed.

Lemma requests_get_call_raises (url : string) (p : pyval) (w w1 : World) (e : exn) :
  requests_get_call url p w = (Raise e, w1) -> is_Exception e = true.
Proof.
  unfold requests_get_call.
  destruct (requests_available w).
  - destruct (requests_get w (tick w) url p); intros H; [discriminate |].
    injection H as <- _. reflexivity.
  - intros H. injection H as <- _. reflexivity.
Qed.

Lemma wolfram_online_cases (self : WolframAlphaAdapter.t) (key ep : string) (p : pyval)
    (w : World) :
  match fst (WolframAlphaAdapter.online_call self key ep p w) with
  | Ok v => is_dict v = true
  | Raise e => is_Exception e = true
  end.
Proof.
  unfold WolframAlphaAdapter.online_call.
  destruct (WolframAlphaAdapter.full_params key p) as [fp | e] eqn:Hfp.
  - destruct (requests_get_call _ fp w) as [[response | e] w1] eqn:Hreq.
    + unfold response_json. destruct (json_body response) as [body |].
      * destruct body; reflexivity.
      * reflexivity.
    + simpl. exact (requests_get_call_raises _ _ _ _ _ Hreq).
  - destruct p; simpl in Hfp; try discriminate; injection Hfp as <-; reflexivity.
Qed.

Lemma wolfram_well_behaved (self : WolframAlphaAdapter.t) :
  well_behaved (WolframAlphaAdapter.adapter self).
Proof.
  intros m ep p w. destruct m; simpl.
  - unfold WolframAlphaAdapter.make_call.
    destruct (truthy_key (WolframAlphaAdapter.api_key self)).
    + pose proof (wolfram_online_cases self
                    (default "" (WolframAlphaAdapter.api_key self)) ep p w) as Hon.
      unfold except_Exception.
      destruct (WolframAlphaAdapter.online_call self _ ep p w) as [[v | e] w1];
        simpl in Hon.
      * exact Hon.
      * rewrite Hon. apply wolfram_offline_cases.
    + apply wolfram_offline_cases.
  - apply wolfram_offline_cases.
Qed.

Lemma math_well_behaved : well_behaved MathComputationAdapter.adapter.
Proof. intros m ep p w. destruct m; reflexivity. Qed.

Lemma calendar_well_behaved : well_behaved CalendarAdapter.adapter.
Proof. intros m ep p w. destruct m; reflexivity. Qed.

Lemma task_well_behaved : well_behaved TaskAdapter.adapter.
Proof. intros m ep p w. destruct m; reflexivity. Qed.

Lemma data_analysis_well_behaved : well_behaved DataAnalysisAdapter.adapter.
Proof.
  intros m ep p w.
  assert (H : match fst (DataAnalysisAdapter.make_call ep p w) with
              | Ok v => is_dict v = true
              | Raise e => is_Exception e = true
              end).
  { unfold DataAnalysisAdapter.make_call, DataAnalysisAdapter._simulate_analysis.
    destruct (py_get p "dataset" (PStr "sales")) as [dataset | e] eqn:Hp.
    - destruct (format_value w dataset) as [name | e] eqn:Hf; [reflexivity |].
      simpl. exact (format_value_raises _ _ _ Hf).
    - simpl. exact (proj1 (py_get_raises _ _ _ _ Hp)). }
  destruct m; exact H.
Qed.

Lemma accounting_well_behaved : well_behaved AccountingAdapter.adapter.
Proof. intros m ep p w. destruct m; reflexivity. Qed.

Lemma agriculture_well_behaved : well_behaved AgricultureAdapter.adapter.
Proof. intros m ep p w. destruct m; reflexivity. Qed.

Lemma project_well_behaved : well_behaved ProjectManagementAdapter.adapter.
Proof. intros m ep p w. destruct m; reflexivity. Qed.

Lemma relationship_well_behaved : well_behaved RelationshipAdapter.adapter.
Proof.
  intros m ep p w.
  assert (H : match fst (RelationshipAdapter.make_call ep p w) with
              | Ok v => is_dict v = true
              | Raise e => is_Exception e = true
              end).
  { unfold RelationshipAdapter.make_call, RelationshipAdapter._analyze_relationship.
    destruct p; reflexivity. }
  destruct m; exact H.
Qed.

(** Every adapter of the shipped registry answers with dicts and fails with
    instances of [Exception]. *)
Lemma shipped_registry_well_behaved (w : World) (name : string) (a : Adapter) :
  shipped_registry w !! name = Some a -> well_behaved a.
Proof.
  unfold shipped_registry. intros H.
  apply elem_of_list_to_map_2 in H.
  repeat (apply elem_of_cons in H as [H | H];
          [injection H as _ ->;
           first [ apply wolfram_well_behaved | apply math_well_behaved
                 | apply calendar_well_behaved | apply task_well_behaved
                 | apply data_analysis_well_behaved | apply accounting_well_behaved
                 | apply agriculture_well_behaved | apply project_well_behaved
                 | apply relationship_well_behaved ] |]).
  apply elem_of_nil in H. contradiction.
Qed.

Lemma reachable_well_behaved (self : Manager) (name : string) (a : Adapter) :
  reachable self -> service_registry self !! name = Some a -> well_behaved a.
Proof.
  intros Hreach Ha.
  destruct (reachable_inv self Hreach) as ((w & Hreg) & _).
  rewrite Hreg in Ha. exact (shipped_registry_well_behaved w name a Ha).
Qed.

(** ** The adapter branch *)

Lemma reports_success_is_dict (v : pyval) : reports_success v = true -> is_dict v = true.
Proof. destruct v; simpl; try discriminate; reflexivity. Qed.

Lemma store_and_return_calls (self : Manager) (rt : Runtime) (result : pyobj)
    (ck : option string) :
  calls (runtime_after (store_and_return self rt result ck)) = calls rt.
Proof.
  unfold store_and_return.
  destruct (truthy_key ck); [| reflexivity].
  destruct (py_get (obj_val result) "success" PNone) as [s | e].
  - destruct (truthy s); reflexivity.
  - apply api_call_failed_calls.
Qed.

(** The branch logs exactly one invocation: the method that [offline_mode]
    selects, with the arguments of the call. *)
Lemma dispatch_calls (self : Manager) (rt : Runtime) (adapter : Adapter)
    (s ep : string) (p : pyval) (ck : option string) :
  calls (runtime_after (dispatch self rt adapter s ep p ck)) =
  calls rt ++ [{| inv_service := s; inv_method := chosen_method self;
                  inv_endpoint := ep; inv_params := p |}].
Proof.
  unfold dispatch, after_adapter. simpl.
  destruct (invoke adapter (chosen_method self) ep p (world rt)) as [[v | e] w].
  - simpl. rewrite store_and_return_calls. reflexivity.
  - simpl. rewrite api_call_failed_calls. reflexivity.
Qed.

(** With a well-behaved adapter the branch returns a new dict: the
    adapter's result, or the envelope of the exception it raised. *)
Lemma dispatch_well_behaved (self : Manager) (rt : Runtime) (adapter : Adapter)
    (s ep : string) (p : pyval) (ck : option string) :
  well_behaved adapter ->
  exists r,
    returned (dispatch self rt adapter s ep p ck) = Ok r /\
    obj_id r = next_id rt /\
    is_dict (obj_val r) = true /\
    match invoke adapter (chosen_method self) ep p (world rt) with
    | (Ok v, _) => obj_val r = v
    | (Raise e, w) =>
        obj_val r = error_envelope ("API call failed: " +:+ exn_str e)
                      (isoformat (datetime_now w (tick w))) (offline_mode self) /\
        manager_after (dispatch self rt adapter s ep p ck) = self
    end.
Proof.
  intros Hwb. specialize (Hwb (chosen_method self) ep p (world rt)).
  unfold dispatch, after_adapter. simpl.
  destruct (invoke adapter (chosen_method self) ep p (world rt)) as [[v | e] w];
    simpl in Hwb.
  - simpl. unfold store_and_return. simpl.
    destruct (py_get_dict v "success" PNone Hwb) as [x Hx]. rewrite Hx.
    exists {| obj_id := next_id rt; obj_val := v |}.
    destruct (truthy_key ck); [destruct (truthy x) |]; simpl; auto.
  - simpl. rewrite (api_call_failed_caught _ _ _ Hwb). simpl.
    eexists. repeat split.
Qed.

(** C5.  In a reachable state, whatever exception the adapter branch
    raises (in [make_call], in [get_offline_response], or in the cache store
    that follows) is caught: the call returns the failure dict with
    ['success'] [False] and, under ['error'], the text
    ["API call failed: "] followed by [str(e)]; nothing is raised to the
    caller and the manager is left as it was. *)
Theorem adapter_exception_becomes_envelope (self : Manager) (rt : Runtime)
    (service_name endpoint : string) (params : pyval) (cache_key : option string)
    (adapter : Adapter) (e : exn) :
  reachable self ->
  service_registry self !! service_name = Some adapter ->
  fst (cache_check self rt cache_key) = None ->
  adapter_branch_exception self (snd (cache_check self rt cache_key)) adapter
    endpoint params cache_key = Some e ->
  exists r ts,
    returned (make_api_call self rt service_name endpoint params cache_key) = Ok r /\
    obj_val r =
      PDict [("success", PBool false);
             ("error", PStr ("API call failed: " +:+ exn_str e));
             ("timestamp", PStr ts);
             ("offline_mode", PBool (offline_mode self))] /\
    manager_after (make_api_call self rt service_name endpoint params cache_key) = self.
Proof.
  intros Hreach Hreg Hmiss Hexn.
  pose proof (reachable_well_behaved self service_name adapter Hreach Hreg) as Hwb.
  unfold make_api_call. rewrite Hreg.
  destruct (cache_check self rt cache_key) as [o rt1] eqn:Hcc.
  simpl in Hmiss, Hexn. subst o.
  destruct (dispatch_well_behaved self rt1 adapter service_name endpoint params
              cache_key Hwb) as (r & Hr & _ & _ & Hcase).
  unfold adapter_branch_exception in Hexn.
  specialize (Hwb (chosen_method self) endpoint params (world rt1)).
  destruct (invoke adapter (chosen_method self) endpoint params (world rt1))
    as [[v | e0] w]; simpl in Hwb.
  - destruct (truthy_key cache_key); [| discriminate].
    destruct (py_get_dict v "success" PNone Hwb) as [x Hx].
    rewrite Hx in Hexn. discriminate.
  - injection Hexn as ->. destruct Hcase as [Hv Hm].
    exists r, (isoformat (datetime_now w (tick w))).
    split; [exact Hr |]. split; [exact Hv | exact Hm].
Qed.

Lemma adapter_exception_becomes_envelope_witness :
  reachable Demo.warm_manager /\
  service_registry Demo.warm_manager !! "wolfram_alpha"
    = Some (WolframAlphaAdapter.adapter (WolframAlphaAdapter.__init__ Demo.still_world)) /\
  fst (cache_check Demo.warm_manager Demo.late_runtime (Some "k")) = None /\
  adapter_branch_exception Demo.warm_manager
    (snd (cache_check Demo.warm_manager Demo.late_runtime (Some "k")))
    (WolframAlphaAdapter.adapter (WolframAlphaAdapter.__init__ Demo.still_world))
    "query" PNone (Some "k") = Some (no_attribute PNone "get") /\
  exists r ts,
    returned (make_api_call Demo.warm_manager Demo.late_runtime "wolfram_alpha" "query"
                PNone (Some "k")) = Ok r /\
    obj_val r =
      PDict [("success", PBool false);
             ("error", PStr ("API call failed: " +:+ exn_str (no_attribute PNone "get")));
             ("timestamp", PStr ts);
             ("offline_mode", PBool (offline_mode Demo.warm_manager))] /\
    manager_after (make_api_call Demo.warm_manager Demo.late_runtime "wolfram_alpha"
                     "query" PNone (Some "k")) = Demo.warm_manager.
Proof.
  assert (H1 : reachable Demo.warm_manager)
    by (unfold Demo.warm_manager, Demo.first_call; apply reach_call, reach_init).
  assert (H2 : service_registry Demo.warm_manager !! "wolfram_alpha"
               = Some (WolframAlphaAdapter.adapter
                         (WolframAlphaAdapter.__init__ Demo.still_world)))
    by (vm_compute; reflexivity).
  assert (H3 : fst (cache_check Demo.warm_manager Demo.late_runtime (Some "k")) = None)
    by (vm_compute; reflexivity).
  assert (H4 : adapter_branch_exception Demo.warm_manager
                 (snd (cache_check Demo.warm_manager Demo.late_runtime (Some "k")))
                 (WolframAlphaAdapter.adapter
                    (WolframAlphaAdapter.__init__ Demo.still_world))
                 "query" PNone (Some "k") = Some (no_attribute PNone "get"))
    by (vm_compute; reflexivity).
  repeat (split; [assumption |]).
  exact (adapter_exception_becomes_envelope Demo.warm_manager Demo.late_runtime
           "wolfram_alpha" "query" PNone (Some "k") _ _ H1 H2 H3 H4).
Defined.

(** ** Totality *)

(** C9.  In every reachable state and for every service name, endpoint,
    params and cache key (a string or [None]), the call returns, and what it
    returns is a dict: the cached result, the result of the adapter method,
    or the standard error envelope.  It raises nothing. *)
Theorem make_api_call_total (self : Manager) (rt : Runtime)
    (service_name endpoint : string) (params : pyval) (cache_key : option string) :
  reachable self ->
  exists r,
    returned (make_api_call self rt service_name endpoint params cache_key) = Ok r /\
    is_dict (obj_val r) = true /\
    ((exists k e, cache_key = Some k /\ cache self !! k = Some e /\ r = data e) \/
     (exists adapter w,
        service_registry self !! service_name = Some adapter /\
        fst (invoke adapter (chosen_method self) endpoint params w) = Ok (obj_val r)) \/
     (exists msg ts, obj_val r = error_envelope msg ts (offline_mode self))).
Proof.
  intros Hreach.
  destruct (reachable_inv self Hreach) as (_ & _ & Hcache).
  unfold make_api_call.
  destruct (service_registry self !! service_name) as [adapter |] eqn:Hreg.
  - destruct (cache_check self rt cache_key) as [[cached |] rt1] eqn:Hcc.
    + destruct (cache_check_Some self rt rt1 cache_key cached Hcc)
        as (k & e & Hk & _ & He & -> & _).
      exists (data e). split; [reflexivity |]. split.
      * apply reports_success_is_dict. exact (proj2 (Hcache k e He)).
      * left. exists k, e. auto.
    + pose proof (reachable_well_behaved self service_name adapter Hreach Hreg) as Hwb.
      destruct (dispatch_well_behaved self rt1 adapter service_name endpoint params
                  cache_key Hwb) as (r & Hr & _ & Hd & Hcase).
      exists r. split; [exact Hr |]. split; [exact Hd |].
      destruct (invoke adapter (chosen_method self) endpoint params (world rt1))
        as [[v | e] w] eqn:Hinv.
      * right. left. exists adapter, (world rt1). rewrite Hinv. simpl.
        split; [reflexivity | congruence].
      * right. right. destruct Hcase as [Hv _]. eauto.
  - simpl. eexists. split; [reflexivity |]. split; [reflexivity |].
    right. right. eauto.
Qed.

Lemma make_api_call_total_witness :
  reachable Demo.warm_manager /\
  exists r,
    returned (make_api_call Demo.warm_manager Demo.late_runtime "data_analysis" "trend"
                (PList []) None) = Ok r /\
    is_dict (obj_val r) = true.
Proof.
  assert (H1 : reachable Demo.warm_manager)
    by (unfold Demo.warm_manager, Demo.first_call; apply reach_call, reach_init).
  split; [exact H1 |].
  destruct (make_api_call_total Demo.warm_manager Demo.late_runtime "data_analysis"
              "trend" (PList []) None H1) as (r & Hr & Hd & _).
  exists r. split; [exact Hr | exact Hd].
Defined.

(** ** The stale entry *)

(** C2, as stated, fails: the entry is an hour old, the adapter is called
    afresh, but the call raises ([params] is [None]) and has no result; what
    the manager returns is the error envelope. *)
Lemma stale_entry_adapter_raises_counterexample :
  service_registry Demo.warm_manager !! "wolfram_alpha"
    = Some (WolframAlphaAdapter.adapter (WolframAlphaAdapter.__init__ Demo.still_world)) /\
  cache Demo.warm_manager !! "k" = Some Demo.cached_entry /\
  (300 <= cache_age Demo.late_runtime Demo.cached_entry)%Q /\
  fst (invoke (WolframAlphaAdapter.adapter (WolframAlphaAdapter.__init__ Demo.still_world))
         (chosen_method Demo.warm_manager) "query" PNone (advance Demo.later_world))
    = Raise (no_attribute PNone "get") /\
  returned (make_api_call Demo.warm_manager Demo.late_runtime "wolfram_alpha" "query"
              PNone (Some "k"))
    = Ok {| obj_id := 1;
            obj_val := error_envelope
                         "API call failed: 'NoneType' object has no attribute 'get'"
                         "2025-01-01T01:00:00" true |}.
Proof.
  split; [vm_compute; reflexivity |].
  split; [vm_compute; reflexivity |].
  split; [vm_compute; discriminate |].
  split; vm_compute; reflexivity.
Qed.

(** C2, amended.  In a reachable state, a call with a registered service
    name and a cache key whose entry is 300 seconds old or older does not
    return the cached object: the adapter method that [offline_mode] selects
    is invoked once, and a new object is returned, holding the result of
    that invocation when it returns and the error envelope
    ["API call failed: ..."] when it raises.  The hypothesis on [next_id]
    says that the cached object exists when the call starts. *)
Theorem stale_entry_calls_adapter (self : Manager) (rt : Runtime)
    (service_name endpoint : string) (params : pyval) (k : string)
    (adapter : Adapter) (e : CacheEntry) :
  reachable self ->
  service_registry self !! service_name = Some adapter ->
  cache self !! k = Some e ->
  (300 <= cache_age rt e)%Q ->
  obj_id (data e) < next_id rt ->
  calls (runtime_after (make_api_call self rt service_name endpoint params (Some k)))
    = calls rt ++ [{| inv_service := service_name; inv_method := chosen_method self;
                      inv_endpoint := endpoint; inv_params := params |}] /\
  exists r,
    returned (make_api_call self rt service_name endpoint params (Some k)) = Ok r /\
    r <> data e /\
    obj_id r = next_id rt /\
    match invoke adapter (chosen_method self) endpoint params (advance (world rt)) with
    | (Ok v, _) => obj_val r = v
    | (Raise exc, w) =>
        obj_val r = error_envelope ("API call failed: " +:+ exn_str exc)
                      (isoformat (datetime_now w (tick w))) (offline_mode self)
    end.
Proof.
  intros Hreach Hreg He Hage Halloc.
  destruct (reachable_inv self Hreach) as (_ & Httl & Hcache).
  destruct (Hcache k e He) as [Hk _].
  pose proof (reachable_well_behaved self service_name adapter Hreach Hreg) as Hwb.
  unfold make_api_call. rewrite Hreg.
  rewrite (cache_check_stale self rt k e Hk He) by (rewrite Httl; exact Hage).
  split.
  - rewrite dispatch_calls. reflexivity.
  - destruct (dispatch_well_behaved self (with_world rt (advance (world rt))) adapter
                service_name endpoint params (Some k) Hwb) as (r & Hr & Hid & _ & Hcase).
    simpl in Hid, Hcase.
    exists r. split; [exact Hr |]. split; [| split; [exact Hid |]].
    + intros ->. lia.
    + destruct (invoke adapter (chosen_method self) endpoint params (advance (world rt)))
        as [[v | exc] w]; [exact Hcase | exact (proj1 Hcase)].
Qed.

Lemma stale_entry_calls_adapter_witness :
  reachable Demo.warm_manager /\
  service_registry Demo.warm_manager !! "task_simulator" = Some TaskAdapter.adapter /\
  cache Demo.warm_manager !! "k" = Some Demo.cached_entry /\
  (300 <= cache_age Demo.late_runtime Demo.cached_entry)%Q /\
  obj_id (data Demo.cached_entry) < next_id Demo.late_runtime /\
  calls (runtime_after (make_api_call Demo.warm_manager Demo.late_runtime "task_simulator"
                          "list" (PDict []) (Some "k")))
    = calls Demo.late_runtime
      ++ [{| inv_service := "task_simulator";
             inv_method := chosen_method Demo.warm_manager;
             inv_endpoint := "list"; inv_params := PDict [] |}].
Proof.
  assert (H1 : reachable Demo.warm_manager)
    by (unfold Demo.warm_manager, Demo.first_call; apply reach_call, reach_init).
  assert (H2 : service_registry Demo.warm_manager !! "task_simulator"
               = Some TaskAdapter.adapter) by (vm_compute; reflexivity).
  assert (H3 : cache Demo.warm_manager !! "k" = Some Demo.cached_entry)
    by (vm_compute; reflexivity).
  assert (H4 : (300 <= cache_age Demo.late_runtime Demo.cached_entry)%Q)
    by (vm_compute; discriminate).
  assert (H5 : obj_id (data Demo.cached_entry) < next_id Demo.late_runtime)
    by (vm_compute; lia).
  repeat (split; [assumption |]).
  exact (proj1 (stale_entry_calls_adapter Demo.warm_manager Demo.late_runtime
                  "task_simulator" "list" (PDict []) "k" TaskAdapter.adapter
                  Demo.cached_entry H1 H2 H3 H4 H5)).
Defined.

(** ** Offline mode *)

(** C4.  The connectivity check sets [offline_mode] to [True] when the
    [requests] library is missing, when the probe raises, and when the probe
    answers with a status other than 200, and so does [__init__], which runs
    it.  A call that reaches an adapter invokes [get_offline_response] when
    [offline_mode] is [True] and [make_call] when it is [False], and
    completes with the answer of that method. *)
Theorem offline_mode_selects_method (self0 self : Manager) (w : World) (rt : Runtime)
    (service_name endpoint : string) (params : pyval) (cache_key : option string)
    (adapter : Adapter) :
  (requests_available w = false \/
   (exists msg, requests_get w (tick w) "https://httpbin.org/status/200" PNone
                = HttpError msg) \/
   (exists r, requests_get w (tick w) "https://httpbin.org/status/200" PNone
              = HttpResponse r /\ status_code r <> 200%Z) ->
   offline_mode (fst (_check_connectivity self0 w)) = true /\
   offline_mode (fst (__init__ w)) = true) /\
  (service_registry self !! service_name = Some adapter ->
   fst (cache_check self rt cache_key) = None ->
   let rt1 := snd (cache_check self rt cache_key) in
   (offline_mode self = true ->
    calls (runtime_after (make_api_call self rt service_name endpoint params cache_key))
      = calls rt ++ [{| inv_service := service_name; inv_method := GetOfflineResponse;
                        inv_endpoint := endpoint; inv_params := params |}] /\
    make_api_call self rt service_name endpoint params cache_key
      = after_adapter self
          (log_call {| inv_service := service_name; inv_method := GetOfflineResponse;
                       inv_endpoint := endpoint; inv_params := params |} rt1)
          (get_offline_response adapter endpoint params (world rt1)) cache_key) /\
   (offline_mode self = false ->
    calls (runtime_after (make_api_call self rt service_name endpoint params cache_key))
      = calls rt ++ [{| inv_service := service_name; inv_method := MakeCall;
                        inv_endpoint := endpoint; inv_params := params |}] /\
    make_api_call self rt service_name endpoint params cache_key
      = after_adapter self
          (log_call {| inv_service := service_name; inv_method := MakeCall;
                       inv_endpoint := endpoint; inv_params := params |} rt1)
          (make_call adapter endpoint params (world rt1)) cache_key)).
Proof.
  split.
  - intros Hprobe.
    assert (Hcc : forall m, offline_mode (fst (_check_connectivity m w)) = true).
    { intros m. unfold _check_connectivity, requests_get_call.
      destruct (requests_available w) eqn:Hav; simpl; [| reflexivity].
      destruct Hprobe as [Hno | [[msg Herr] | (r & Hresp & Hcode)]].
      - discriminate.
      - rewrite Herr. reflexivity.
      - rewrite Hresp. simpl. apply negb_true_iff. apply Z.eqb_neq. exact Hcode. }
    split; [apply Hcc |]. unfold __init__, _initialize_services. apply Hcc.
  - intros Hreg Hmiss rt1.
    pose proof (cache_check_runtime self rt cache_key) as [_ Hcalls].
    unfold make_api_call. rewrite Hreg. subst rt1.
    destruct (cache_check self rt cache_key) as [o rt1] eqn:Hcc.
    simpl in Hmiss, Hcalls. subst o. simpl.
    split; intros Hoff.
    + rewrite dispatch_calls, Hcalls. unfold dispatch, chosen_method. rewrite Hoff.
      split; reflexivity.
    + rewrite dispatch_calls, Hcalls. unfold dispatch, chosen_method. rewrite Hoff.
      split; reflexivity.
Qed.

(** With [requests] and a probe that answers 200 the manager is online, and
    a call goes to [make_call]. *)
Example online_manager_uses_make_call :
  offline_mode (fst (__init__ Demo.online_world)) = false /\
  calls (runtime_after
           (make_api_call (fst (__init__ Demo.online_world))
              {| world := snd (__init__ Demo.online_world); next_id := 0; calls := [] |}
              "math_computation" "status" (PDict []) None))
    = [{| inv_service := "math_computation"; inv_method := MakeCall;
          inv_endpoint := "status"; inv_params := PDict [] |}].
Proof. split; vm_compute; reflexivity. Qed.

Lemma offline_mode_selects_method_witness :
  requests_available Demo.still_world = false /\
  offline_mode (fst (__init__ Demo.still_world)) = true /\
  service_registry Demo.fresh_manager !! "task_simulator" = Some TaskAdapter.adapter /\
  fst (cache_check Demo.fresh_manager Demo.start None) = None /\
  offline_mode Demo.fresh_manager = true /\
  calls (runtime_after (make_api_call Demo.fresh_manager Demo.start "task_simulator"
                          "list" (PDict []) None))
    = calls Demo.start
      ++ [{| inv_service := "task_simulator"; inv_method := GetOfflineResponse;
             inv_endpoint := "list"; inv_params := PDict [] |}].
Proof.
  assert (H1 : requests_available Demo.still_world = false) by reflexivity.
  assert (H2 : service_registry Demo.fresh_manager !! "task_simulator"
               = Some TaskAdapter.adapter) by (vm_compute; reflexivity).
  assert (H3 : fst (cache_check Demo.fresh_manager Demo.start None) = None)
    by reflexivity.
  assert (H4 : offline_mode Demo.fresh_manager = true) by (vm_compute; reflexivity).
  destruct (offline_mode_selects_method Demo.fresh_manager Demo.fresh_manager
              Demo.still_world Demo.start "task_simulator" "list" (PDict []) None
              TaskAdapter.adapter) as [Ha Hb].
  split; [exact H1 |].
  split; [exact (proj2 (Ha (or_introl H1))) |].
  split; [exact H2 |]. split; [exact H3 |]. split; [exact H4 |].
  exact (proj1 (proj1 (Hb H2 H3) H4)).
Defined.

(** ** The offline answers of [WolframAlphaAdapter] *)

Lemma lower_ascii_eqb (a b : ascii) :
  Ascii.eqb a b = true -> Ascii.eqb (lower_ascii a) (lower_ascii b) = true.
Proof. intros H. apply Ascii.eqb_eq in H. subst b. apply Ascii.eqb_refl. Qed.

Lemma startswith_lower (p s : string) :
  startswith s p = true -> startswith (lower s) (lower p) = true.
Proof.
  revert s. induction p as [| a p IH]; intros s H.
  - destruct s; reflexivity.
  - destruct s as [| b s]; [discriminate |].
    simpl in *. destruct (Ascii.eqb a b) eqn:Hab; [| discriminate].
    rewrite (lower_ascii_eqb a b Hab). apply IH. exact H.
Qed.

(** Lowering the text keeps the occurrences of a pattern, lowered. *)
Lemma str_in_lower (p s : string) :
  str_in p s = true -> str_in (lower p) (lower s) = true.
Proof.
  induction s as [| b s IH]; intros H.
  - simpl in *. apply orb_true_iff in H as [H | H]; [| discriminate].
    apply orb_true_iff. left. exact (startswith_lower p "" H).
  - cbn [str_in] in H. apply orb_true_iff in H as [H | H].
    + cbn [lower str_in]. apply orb_true_iff. left.
      exact (startswith_lower p (String b s) H).
    + cbn [lower str_in]. apply orb_true_iff. right. apply IH. exact H.
Qed.

Lemma first_result_app (t1 t2 : list (string * (string -> option string)))
    (query : string) :
  WolframAlphaAdapter.first_result (t1 ++ t2) query =
  match WolframAlphaAdapter.first_result t1 query with
  | Some r => Some r
  | None => WolframAlphaAdapter.first_result t2 query
  end.
Proof.
  induction t1 as [| [math_type calculator] t1 IH]; [reflexivity |].
  cbn [app WolframAlphaAdapter.first_result].
  destruct (str_in math_type query); [| exact IH].
  destruct (calculator query) as [r |]; [| exact IH].
  destruct (truthy (PStr r)); [reflexivity | exact IH].
Qed.

(** C7, as stated, fails: the query ['2+2'] contains ['2+2'] and gets the
    failure response, because no keyword of the table occurs in it. *)
Lemma bare_two_plus_two_counterexample :
  str_in "2+2" "2+2" = true /\
  WolframAlphaAdapter.get_offline_response
    (WolframAlphaAdapter.__init__ Demo.still_world) "query"
    (PDict [("query", PStr "2+2")]) Demo.still_world
  = (Ok (PDict [("success", PBool false);
                ("error", PStr "Offline math computation not available for this query");
                ("suggestion", PStr "Try basic arithmetic, derivatives, or integrals")]),
     Demo.still_world).
Proof. split; vm_compute; reflexivity. Qed.

(** C7, amended.  For every params dict whose ['query'] is a string that
    contains ['2+2'] and, once lowered, the keyword ['calculate'], and for
    which none of the earlier rows of the table (['derivative'],
    ['integral'], ['solve']) gives an answer, [get_offline_response]
    returns a success response whose data is the string ['4']. *)
Theorem offline_calculate_two_plus_two (self : WolframAlphaAdapter.t) (endpoint : string)
    (d : list (string * pyval)) (q : string) (w : World) :
  dict_lookup d "query" = Some (PStr q) ->
  str_in "2+2" q = true ->
  str_in "calculate" (lower q) = true ->
  WolframAlphaAdapter.first_result
    [("derivative", WolframAlphaAdapter._calculate_basic_derivative);
     ("integral", WolframAlphaAdapter._calculate_basic_integral);
     ("solve", WolframAlphaAdapter._solve_basic_equation)] (lower q) = None ->
  WolframAlphaAdapter.get_offline_response self endpoint (PDict d) w
  = (Ok (PDict [("success", PBool true);
                ("data", PStr "4");
                ("source", PStr "offline_math");
                ("cached", PBool false)]), w).
Proof.
  intros Hq H22 Hcalc Hearlier.
  apply str_in_lower in H22. change (lower "2+2") with "2+2" in H22.
  unfold WolframAlphaAdapter.get_offline_response.
  cbn [py_get]. rewrite Hq. cbn [py_lower].
  change WolframAlphaAdapter.math_responses with
    ([("derivative", WolframAlphaAdapter._calculate_basic_derivative);
      ("integral", WolframAlphaAdapter._calculate_basic_integral);
      ("solve", WolframAlphaAdapter._solve_basic_equation)]
     ++ [("calculate", WolframAlphaAdapter._calculate_expression)]).
  rewrite first_result_app, Hearlier.
  cbn [WolframAlphaAdapter.first_result]. rewrite Hcalc.
  unfold WolframAlphaAdapter._calculate_expression. rewrite H22.
  reflexivity.
Qed.

Lemma offline_calculate_two_plus_two_witness :
  dict_lookup [("query", PStr "Calculate 2+2")] "query" = Some (PStr "Calculate 2+2") /\
  str_in "2+2" "Calculate 2+2" = true /\
  str_in "calculate" (lower "Calculate 2+2") = true /\
  WolframAlphaAdapter.first_result
    [("derivative", WolframAlphaAdapter._calculate_basic_derivative);
     ("integral", WolframAlphaAdapter._calculate_basic_integral);
     ("solve", WolframAlphaAdapter._solve_basic_equation)] (lower "Calculate 2+2")
    = None /\
  WolframAlphaAdapter.get_offline_response
    (WolframAlphaAdapter.__init__ Demo.still_world) "query"
    (PDict [("query", PStr "Calculate 2+2")]) Demo.still_world
  = (Ok (PDict [("success", PBool true);
                ("data", PStr "4");
                ("source", PStr "offline_math");
                ("cached", PBool false)]), Demo.still_world).
Proof.
  assert (H1 : dict_lookup [("query", PStr "Calculate 2+2")] "query"
               = Some (PStr "Calculate 2+2")) by reflexivity.
  assert (H2 : str_in "2+2" "Calculate 2+2" = true) by reflexivity.
  assert (H3 : str_in "calculate" (lower "Calculate 2+2") = true) by reflexivity.
  assert (H4 : WolframAlphaAdapter.first_result
                 [("derivative", WolframAlphaAdapter._calculate_basic_derivative);
                  ("integral", WolframAlphaAdapter._calculate_basic_integral);
                  ("solve", WolframAlphaAdapter._solve_basic_equation)]
                 (lower "Calculate 2+2") = None) by reflexivity.
  repeat (split; [assumption |]).
  exact (offline_calculate_two_plus_two (WolframAlphaAdapter.__init__ Demo.still_world)
           "query" _ "Calculate 2+2" Demo.still_world H1 H2 H3 H4).
Defined.

(** ** Encryption with a discarded key *)

Lemma plain_bytes_advance
    (json_text : pyval -> lib_result) (str_encode : string -> lib_result)
    (data : pyval) (w : World) :
  DefendIQSecurity.plain_bytes json_text str_encode data (advance w)
  = DefendIQSecurity.plain_bytes json_text str_encode data w.
Proof. reflexivity. Qed.

Lemma plain_bytes_raises
    (json_text : pyval -> lib_result) (str_encode : string -> lib_result)
    (data : pyval) (w : World) (e : exn) :
  DefendIQSecurity.plain_bytes json_text str_encode data w = Raise e ->
  is_Exception e = true.
Proof.
  unfold DefendIQSecurity.plain_bytes, DefendIQSecurity.data_str,
    DefendIQSecurity.json_dumps.
  destruct (is_dict data).
  - destruct (DefendIQSecurity.json_serializable data).
    + destruct (lib_outcome (json_text data)) as [text | e0] eqn:Ht.
      * apply lib_outcome_raises.
      * intros H. injection H as <-. exact (lib_outcome_raises _ _ Ht).
    + intros H. injection H as <-. reflexivity.
  - destruct (format_value w data) as [text | e0] eqn:Ht.
    + apply lib_outcome_raises.
    + intros H. injection H as <-. exact (format_value_raises _ _ _ Ht).
Qed.


(** The path through the handler. *)
Lemma encrypt_data_falls_back
    (Fernet_generate_key : string -> string)
    (Fernet_encrypt : string -> Q -> string -> string -> string)
    (json_text : pyval -> lib_result) (str_encode : string -> lib_result)
    (self : DefendIQSecurity.t) (data security_config enabled : pyval) (w : World)
    (e : exn) :
  DefendIQSecurity.py_getitem security_config "encryption" = Ok enabled ->
  truthy enabled = true ->
  cryptography_available w = true ->
  DefendIQSecurity.plain_bytes json_text str_encode data w = Raise e ->
  DefendIQSecurity._encrypt_data Fernet_generate_key Fernet_encrypt json_text str_encode
    self data security_config w
  = (Ok (DefendIQSecurity.unencrypted_fallback data), self, advance w).
Proof.
  intros Hcfg Hen Hlib Hplain.
  unfold DefendIQSecurity._encrypt_data. rewrite Hcfg, Hen, Hlib. simpl negb. simpl orb.
  unfold DefendIQSecurity.encrypt_body.
  rewrite plain_bytes_advance, Hplain.
  rewrite (plain_bytes_raises _ _ _ _ _ Hplain). reflexivity.
Qed.




(** * Further properties of the code *)

(** ** [_encrypt_data]: the paths around the encryption *)

(** With encryption disabled in the configuration (a false value under
    ['encryption']), or without the [cryptography] library, the data is
    returned as it is: no key is generated, no random bytes are drawn, and
    the object is unchanged. *)
Theorem encrypt_data_disabled_returns_data
    (Fernet_generate_key : string -> string)
    (Fernet_encrypt : string -> Q -> string -> string -> string)
    (json_text : pyval -> lib_result) (str_encode : string -> lib_result)
    (self : DefendIQSecurity.t) (data security_config enabled : pyval) (w : World) :
  DefendIQSecurity.py_getitem security_config "encryption" = Ok enabled ->
  truthy enabled = false \/ cryptography_available w = false ->
  DefendIQSecurity._encrypt_data Fernet_generate_key Fernet_encrypt json_text str_encode
    self data security_config w = (Ok data, self, w).
Proof.
  intros Hcfg Hoff. unfold DefendIQSecurity._encrypt_data. rewrite Hcfg.
  destruct Hoff as [H | H]; rewrite H; simpl.
  - reflexivity.
  - rewrite orb_true_r. reflexivity.
Qed.

Lemma encrypt_data_disabled_returns_data_witness :
  DefendIQSecurity.py_getitem Demo.public "encryption" = Ok (PBool false) /\
  (truthy (PBool false) = false \/ cryptography_available Demo.still_world = false) /\
  DefendIQSecurity._encrypt_data Demo.toy_generate_key Demo.toy_encrypt
    Demo.toy_json_text Demo.toy_encode Demo.security_object Demo.attachment Demo.public
    Demo.still_world
  = (Ok Demo.attachment, Demo.security_object, Demo.still_world).
Proof.
  assert (H1 : DefendIQSecurity.py_getitem Demo.public "encryption" = Ok (PBool false))
    by reflexivity.
  assert (H2 : truthy (PBool false) = false \/
               cryptography_available Demo.still_world = false)
    by (left; reflexivity).
  split; [exact H1 |]. split; [exact H2 |].
  exact (encrypt_data_disabled_returns_data Demo.toy_generate_key Demo.toy_encrypt
           Demo.toy_json_text Demo.toy_encode Demo.security_object Demo.attachment
           Demo.public (PBool false) Demo.still_world H1 H2).
Defined.

(** The configuration is read before the [try]: a configuration dict
    without the key ['encryption'] makes the method raise [KeyError], which
    its own handler does not catch. *)
Theorem encrypt_data_missing_setting_raises
    (Fernet_generate_key : string -> string)
    (Fernet_encrypt : string -> Q -> string -> string -> string)
    (json_text : pyval -> lib_result) (str_encode : string -> lib_result)
    (self : DefendIQSecurity.t) (data : pyval) (d : list (string * pyval)) (w : World) :
  dict_lookup d "encryption" = None ->
  DefendIQSecurity._encrypt_data Fernet_generate_key Fernet_encrypt json_text str_encode
    self data (PDict d) w
  = (Raise {| exn_cls := KeyError; exn_str := "'encryption'" |}, self, w).
Proof.
  intros Hd. unfold DefendIQSecurity._encrypt_data, DefendIQSecurity.py_getitem.
  rewrite Hd. reflexivity.
Qed.

Lemma encrypt_data_missing_setting_raises_witness :
  dict_lookup [("authentication", PStr "basic")] "encryption" = None /\
  DefendIQSecurity._encrypt_data Demo.toy_generate_key Demo.toy_encrypt
    Demo.toy_json_text Demo.toy_encode Demo.security_object (PStr "hello")
    (PDict [("authentication", PStr "basic")]) Demo.still_world
  = (Raise {| exn_cls := KeyError; exn_str := "'encryption'" |},
     Demo.security_object, Demo.still_world).
Proof.
  assert (H1 : dict_lookup [("authentication", PStr "basic")] "encryption" = None)
    by reflexivity.
  split; [exact H1 |].
  exact (encrypt_data_missing_setting_raises Demo.toy_generate_key Demo.toy_encrypt
           Demo.toy_json_text Demo.toy_encode Demo.security_object (PStr "hello")
           [("authentication", PStr "basic")] Demo.still_world H1).
Defined.

(** With encryption enabled and the library there, a dict that [json.dumps]
    refuses comes back in the clear: the fallback dict says ['encrypted']
    [False] and holds the data itself.  The key was generated (one draw of
    random bytes) and is dropped. *)
Theorem encrypt_data_fallback_holds_plain_data
    (Fernet_generate_key : string -> string)
    (Fernet_encrypt : string -> Q -> string -> string -> string)
    (json_text : pyval -> lib_result) (str_encode : string -> lib_result)
    (self : DefendIQSecurity.t) (security_config enabled : pyval)
    (d : list (string * pyval)) (w : World) :
  DefendIQSecurity.py_getitem security_config "encryption" = Ok enabled ->
  truthy enabled = true ->
  cryptography_available w = true ->
  DefendIQSecurity.json_serializable (PDict d) = false ->
  DefendIQSecurity._encrypt_data Fernet_generate_key Fernet_encrypt json_text str_encode
    self (PDict d) security_config w
  = (Ok (PDict [("encrypted", PBool false);
                ("data", PDict d);
                ("warning", PStr "encryption_unavailable")]),
     self, advance w).
Proof.
  intros Hcfg Hen Hlib Hser.
  apply (encrypt_data_falls_back Fernet_generate_key Fernet_encrypt json_text str_encode
           self (PDict d) security_config enabled w
           {| exn_cls := TypeError;
              exn_str := "Object of type bytes is not JSON serializable" |}
           Hcfg Hen Hlib).
  unfold DefendIQSecurity.plain_bytes, DefendIQSecurity.data_str,
    DefendIQSecurity.json_dumps.
  simpl is_dict. cbv iota. rewrite Hser. reflexivity.
Qed.

Lemma encrypt_data_fallback_holds_plain_data_witness :
  DefendIQSecurity.py_getitem Demo.confidential "encryption" = Ok (PBool true) /\
  truthy (PBool true) = true /\
  cryptography_available Demo.still_world = true /\
  DefendIQSecurity.json_serializable
    (PDict [("notes", PList [PStr "a"; PBytes "b"])]) = false /\
  DefendIQSecurity._encrypt_data Demo.toy_generate_key Demo.toy_encrypt
    Demo.toy_json_text Demo.toy_encode Demo.security_object
    (PDict [("notes", PList [PStr "a"; PBytes "b"])]) Demo.confidential Demo.still_world
  = (Ok (PDict [("encrypted", PBool false);
                ("data", PDict [("notes", PList [PStr "a"; PBytes "b"])]);
                ("warning", PStr "encryption_unavailable")]),
     Demo.security_object, advance Demo.still_world).
Proof.
  assert (H1 : DefendIQSecurity.py_getitem Demo.confidential "encryption"
               = Ok (PBool true)) by reflexivity.
  assert (H2 : truthy (PBool true) = true) by reflexivity.
  assert (H3 : cryptography_available Demo.still_world = true) by reflexivity.
  assert (H4 : DefendIQSecurity.json_serializable
                 (PDict [("notes", PList [PStr "a"; PBytes "b"])]) = false)
    by reflexivity.
  repeat (split; [assumption |]).
  exact (encrypt_data_fallback_holds_plain_data Demo.toy_generate_key Demo.toy_encrypt
           Demo.toy_json_text Demo.toy_encode Demo.security_object Demo.confidential
           (PBool true) _ Demo.still_world H1 H2 H3 H4).
Defined.

(** Once the configuration has the key ['encryption'], the method raises
    nothing, whatever the data: it returns the data itself, the dict with
    the ciphertext, or the fallback dict around the data; and it never
    changes the object. *)
Theorem encrypt_data_three_outcomes
    (Fernet_generate_key : string -> string)
    (Fernet_encrypt : string -> Q -> string -> string -> string)
    (json_text : pyval -> lib_result) (str_encode : string -> lib_result)
    (self : DefendIQSecurity.t) (data security_config enabled : pyval) (w : World) :
  DefendIQSecurity.py_getitem security_config "encryption" = Ok enabled ->
  exists v w',
    DefendIQSecurity._encrypt_data Fernet_generate_key Fernet_encrypt json_text str_encode
      self data security_config w = (Ok v, self, w') /\
    (v = data \/
     (exists token, v = PDict [("encrypted", PBool true);
                               ("data", PStr token);
                               ("key_id", PStr "env_derived")]) \/
     v = PDict [("encrypted", PBool false);
                ("data", data);
                ("warning", PStr "encryption_unavailable")]).
Proof.
  intros Hcfg. unfold DefendIQSecurity._encrypt_data. rewrite Hcfg.
  destruct (negb (truthy enabled) || negb (cryptography_available w)).
  - exists data, w. split; [reflexivity | left; reflexivity].
  - unfold DefendIQSecurity.encrypt_body. rewrite plain_bytes_advance.
    destruct (DefendIQSecurity.plain_bytes json_text str_encode data w)
      as [plain | e] eqn:Hplain.
    + do 2 eexists. split; [reflexivity |]. right. left. eexists. reflexivity.
    + rewrite (plain_bytes_raises _ _ _ _ _ Hplain).
      do 2 eexists. split; [reflexivity |]. right. right. reflexivity.
Qed.

Lemma encrypt_data_three_outcomes_witness :
  DefendIQSecurity.py_getitem Demo.confidential "encryption" = Ok (PBool true) /\
  exists v w',
    DefendIQSecurity._encrypt_data Demo.toy_generate_key Demo.toy_encrypt
      Demo.toy_json_text Demo.toy_encode Demo.security_object Demo.attachment
      Demo.confidential Demo.still_world = (Ok v, Demo.security_object, w').
Proof.
  assert (H1 : DefendIQSecurity.py_getitem Demo.confidential "encryption"
               = Ok (PBool true)) by reflexivity.
  split; [exact H1 |].
  destruct (encrypt_data_three_outcomes Demo.toy_generate_key Demo.toy_encrypt
              Demo.toy_json_text Demo.toy_encode Demo.security_object Demo.attachment
              Demo.confidential (PBool true) Demo.still_world H1) as (v & w' & Hv & _).
  exists v, w'. exact Hv.
Defined.

(** Whatever fails while the text of the data is produced or encoded
    ([json.dumps], [str] or [str.encode] raising), the handler answers: the
    data comes back in the clear inside the fallback dict, after the one
    draw of random bytes for the key, and the object is unchanged. *)
Theorem encrypt_data_text_failure_falls_back
    (Fernet_generate_key : string -> string)
    (Fernet_encrypt : string -> Q -> string -> string -> string)
    (json_text : pyval -> lib_result) (str_encode : string -> lib_result)
    (self : DefendIQSecurity.t) (data security_config enabled : pyval) (w : World)
    (e : exn) :
  DefendIQSecurity.py_getitem security_config "encryption" = Ok enabled ->
  truthy enabled = true ->
  cryptography_available w = true ->
  DefendIQSecurity.plain_bytes json_text str_encode data w = Raise e ->
  DefendIQSecurity._encrypt_data Fernet_generate_key Fernet_encrypt json_text str_encode
    self data security_config w
  = (Ok (PDict [("encrypted", PBool false);
                ("data", data);
                ("warning", PStr "encryption_unavailable")]),
     self, advance w).
Proof.
  intros Hcfg Hen Hlib Hplain.
  exact (encrypt_data_falls_back Fernet_generate_key Fernet_encrypt json_text str_encode
           self data security_config enabled w e Hcfg Hen Hlib Hplain).
Qed.

Lemma encrypt_data_text_failure_falls_back_witness :
  DefendIQSecurity.py_getitem Demo.confidential "encryption" = Ok (PBool true) /\
  truthy (PBool true) = true /\
  cryptography_available Demo.digit_limit_world = true /\
  DefendIQSecurity.plain_bytes Demo.toy_json_text Demo.toy_encode Demo.huge_int
    Demo.digit_limit_world
  = Raise {| exn_cls := OtherException "ValueError";
             exn_str := "Exceeds the limit (4300 digits) for integer string conversion" |} /\
  DefendIQSecurity._encrypt_data Demo.toy_generate_key Demo.toy_encrypt
    Demo.toy_json_text Demo.toy_encode Demo.security_object Demo.huge_int
    Demo.confidential Demo.digit_limit_world
  = (Ok (PDict [("encrypted", PBool false);
                ("data", Demo.huge_int);
                ("warning", PStr "encryption_unavailable")]),
     Demo.security_object, advance Demo.digit_limit_world).
Proof.
  assert (H1 : DefendIQSecurity.py_getitem Demo.confidential "encryption"
               = Ok (PBool true)) by reflexivity.
  assert (H2 : truthy (PBool true) = true) by reflexivity.
  assert (H3 : cryptography_available Demo.digit_limit_world = true) by reflexivity.
  assert (H4 : DefendIQSecurity.plain_bytes Demo.toy_json_text Demo.toy_encode
                 Demo.huge_int Demo.digit_limit_world
               = Raise {| exn_cls := OtherException "ValueError";
                          exn_str := "Exceeds the limit (4300 digits) for integer string conversion" |})
    by (vm_compute; reflexivity).
  split; [exact H1 |]. split; [exact H2 |]. split; [exact H3 |]. split; [exact H4 |].
  exact (encrypt_data_text_failure_falls_back Demo.toy_generate_key Demo.toy_encrypt
           Demo.toy_json_text Demo.toy_encode Demo.security_object Demo.huge_int
           Demo.confidential (PBool true) Demo.digit_limit_world _ H1 H2 H3 H4).
Defined.

(** ** [WolframAlphaAdapter.get_offline_response] *)

Lemma lower_ascii_idempotent (c : ascii) : lower_ascii (lower_ascii c) = lower_ascii c.
Proof. destruct c as [[] [] [] [] [] [] [] []]; reflexivity. Qed.

Lemma lower_idempotent (s : string) : lower (lower s) = lower s.
Proof.
  induction s as [| c s IH]; [reflexivity |].
  simpl. rewrite lower_ascii_idempotent, IH. reflexivity.
Qed.

(** The method raises [AttributeError] when [params] is not a dict (so for
    the default [None]) and when the ['query'] is neither a str nor a bytes;
    a bytes query is lowered, and the first test of the loop,
    ['derivative' in query], raises [TypeError]; a dict without ['query'] is
    read as the empty query and gets the failure response; with a str query
    the method returns.  It never touches the world. *)
Theorem wolfram_offline_raise_conditions (self : WolframAlphaAdapter.t)
    (endpoint : string) (params : pyval) (w : World) :
  (is_dict params = false ->
   WolframAlphaAdapter.get_offline_response self endpoint params w
   = (Raise (no_attribute params "get"), w)) /\
  (forall d v,
     params = PDict d -> dict_lookup d "query" = Some v ->
     (forall s, v <> PStr s) -> (forall s, v <> PBytes s) ->
     WolframAlphaAdapter.get_offline_response self endpoint params w
     = (Raise (no_attribute v "lower"), w)) /\
  (forall d s,
     params = PDict d -> dict_lookup d "query" = Some (PBytes s) ->
     WolframAlphaAdapter.get_offline_response self endpoint params w
     = (Raise {| exn_cls := TypeError;
                 exn_str := "a bytes-like object is required, not 'str'" |}, w)) /\
  (forall d,
     params = PDict d -> dict_lookup d "query" = None ->
     WolframAlphaAdapter.get_offline_response self endpoint params w
     = (Ok WolframAlphaAdapter.offline_failure, w)) /\
  (forall d s,
     params = PDict d -> dict_lookup d "query" = Some (PStr s) ->
     exists v, WolframAlphaAdapter.get_offline_response self endpoint params w = (Ok v, w)).
Proof.
  unfold WolframAlphaAdapter.get_offline_response. repeat split.
  - intros Hd. destruct params; try reflexivity. discriminate.
  - intros d v -> Hq Hv Hb. cbn [py_get]. rewrite Hq.
    destruct v; try reflexivity; exfalso; [exact (Hv s eq_refl) | exact (Hb s eq_refl)].
  - intros d s -> Hq. cbn [py_get]. rewrite Hq. reflexivity.
  - intros d -> Hq. cbn [py_get]. rewrite Hq. reflexivity.
  - intros d s -> Hq. cbn [py_get]. rewrite Hq. cbn [py_lower].
    destruct (WolframAlphaAdapter.first_result _ _); eexists; reflexivity.
Qed.

(** Whatever is asked, an offline answer is the failure response or a
    success response whose data is one of thirteen fixed strings, marked
    ['source': 'offline_math'] and ['cached': False]. *)
Theorem wolfram_offline_answers_are_canned (self : WolframAlphaAdapter.t)
    (endpoint : string) (params v : pyval) (w : World) :
  fst (WolframAlphaAdapter.get_offline_response self endpoint params w) = Ok v ->
  v = PDict [("success", PBool false);
             ("error", PStr "Offline math computation not available for this query");
             ("suggestion", PStr "Try basic arithmetic, derivatives, or integrals")] \/
  exists r, In r offline_answers /\
            v = PDict [("success", PBool true);
                       ("data", PStr r);
                       ("source", PStr "offline_math");
                       ("cached", PBool false)].
Proof.
  unfold WolframAlphaAdapter.get_offline_response.
  destruct (py_get params "query" (PStr "")) as [q | e]; [| discriminate].
  destruct (py_lower q) as [[query | query] | e]; [| discriminate | discriminate].
  unfold WolframAlphaAdapter.math_responses, WolframAlphaAdapter.first_result,
    WolframAlphaAdapter._calculate_basic_derivative,
    WolframAlphaAdapter._calculate_basic_integral,
    WolframAlphaAdapter._solve_basic_equation,
    WolframAlphaAdapter._calculate_expression, offline_answers.
  repeat match goal with
         | |- context [if str_in ?a ?b then _ else _] => destruct (str_in a b); simpl
         end;
    intros H; injection H as <-;
    first [ left; reflexivity
          | right; eexists; split; [| reflexivity]; simpl; tauto ].
Qed.

Lemma wolfram_offline_answers_are_canned_witness :
  fst (WolframAlphaAdapter.get_offline_response
         (WolframAlphaAdapter.__init__ Demo.still_world) "query"
         (PDict [("query", PStr "Solve x^2 = 16")]) Demo.still_world)
  = Ok (PDict [("success", PBool true);
               ("data", PStr "x = 4 or x = -4");
               ("source", PStr "offline_math");
               ("cached", PBool false)]) /\
  In "x = 4 or x = -4" offline_answers.
Proof.
  assert (H1 : fst (WolframAlphaAdapter.get_offline_response
                      (WolframAlphaAdapter.__init__ Demo.still_world) "query"
                      (PDict [("query", PStr "Solve x^2 = 16")]) Demo.still_world)
               = Ok (PDict [("success", PBool true);
                            ("data", PStr "x = 4 or x = -4");
                            ("source", PStr "offline_math");
                            ("cached", PBool false)])) by reflexivity.
  split; [exact H1 |].
  destruct (wolfram_offline_answers_are_canned _ _ _ _ _ H1) as [H | (r & Hin & H)].
  - discriminate H.
  - injection H as ->. exact Hin.
Defined.

(** A query in which none of the four keywords occurs gets the failure
    response, whatever expression it holds: the calculators are not
    consulted. *)
Theorem wolfram_offline_needs_keyword (self : WolframAlphaAdapter.t) (endpoint : string)
    (d : list (string * pyval)) (q : string) (w : World) :
  dict_lookup d "query" = Some (PStr q) ->
  str_in "derivative" (lower q) = false ->
  str_in "integral" (lower q) = false ->
  str_in "solve" (lower q) = false ->
  str_in "calculate" (lower q) = false ->
  WolframAlphaAdapter.get_offline_response self endpoint (PDict d) w
  = (Ok (PDict [("success", PBool false);
                ("error", PStr "Offline math computation not available for this query");
                ("suggestion", PStr "Try basic arithmetic, derivatives, or integrals")]),
     w).
Proof.
  intros Hq H1 H2 H3 H4.
  unfold WolframAlphaAdapter.get_offline_response.
  cbn [py_get]. rewrite Hq. cbn [py_lower].
  unfold WolframAlphaAdapter.math_responses.
  cbn [WolframAlphaAdapter.first_result]. rewrite H1, H2, H3, H4. reflexivity.
Qed.

Lemma wolfram_offline_needs_keyword_witness :
  dict_lookup [("query", PStr "What is 15/3 and 5*8?")] "query"
    = Some (PStr "What is 15/3 and 5*8?") /\
  str_in "derivative" (lower "What is 15/3 and 5*8?") = false /\
  str_in "integral" (lower "What is 15/3 and 5*8?") = false /\
  str_in "solve" (lower "What is 15/3 and 5*8?") = false /\
  str_in "calculate" (lower "What is 15/3 and 5*8?") = false /\
  fst (WolframAlphaAdapter.get_offline_response
         (WolframAlphaAdapter.__init__ Demo.still_world) "query"
         (PDict [("query", PStr "What is 15/3 and 5*8?")]) Demo.still_world)
  = Ok WolframAlphaAdapter.offline_failure.
Proof.
  assert (H0 : dict_lookup [("query", PStr "What is 15/3 and 5*8?")] "query"
               = Some (PStr "What is 15/3 and 5*8?")) by reflexivity.
  assert (H1 : str_in "derivative" (lower "What is 15/3 and 5*8?") = false)
    by reflexivity.
  assert (H2 : str_in "integral" (lower "What is 15/3 and 5*8?") = false)
    by reflexivity.
  assert (H3 : str_in "solve" (lower "What is 15/3 and 5*8?") = false) by reflexivity.
  assert (H4 : str_in "calculate" (lower "What is 15/3 and 5*8?") = false)
    by reflexivity.
  repeat (split; [assumption |]).
  exact (f_equal fst
           (wolfram_offline_needs_keyword (WolframAlphaAdapter.__init__ Demo.still_world)
              "query" _ _ Demo.still_world H0 H1 H2 H3 H4)).
Defined.

(** The offline answer depends on the lower-cased query and on nothing
    else: not on the case of the letters, the endpoint, the other
    parameters, the adapter's key or the world. *)
Theorem wolfram_offline_case_insensitive (self1 self2 : WolframAlphaAdapter.t)
    (endpoint1 endpoint2 : string) (d1 d2 : list (string * pyval)) (q : string)
    (w1 w2 : World) :
  dict_lookup d1 "query" = Some (PStr q) ->
  dict_lookup d2 "query" = Some (PStr (lower q)) ->
  fst (WolframAlphaAdapter.get_offline_response self1 endpoint1 (PDict d1) w1)
  = fst (WolframAlphaAdapter.get_offline_response self2 endpoint2 (PDict d2) w2).
Proof.
  intros H1 H2. unfold WolframAlphaAdapter.get_offline_response.
  cbn [py_get]. rewrite H1, H2. cbn [py_lower]. rewrite lower_idempotent.
  destruct (WolframAlphaAdapter.first_result _ _); reflexivity.
Qed.

Lemma wolfram_offline_case_insensitive_witness :
  dict_lookup [("query", PStr "DERIVATIVE of Sin(X)")] "query"
    = Some (PStr "DERIVATIVE of Sin(X)") /\
  dict_lookup [("lang", PStr "en"); ("query", PStr "derivative of sin(x)")] "query"
    = Some (PStr (lower "DERIVATIVE of Sin(X)")) /\
  fst (WolframAlphaAdapter.get_offline_response
         (WolframAlphaAdapter.__init__ Demo.still_world) "query"
         (PDict [("query", PStr "DERIVATIVE of Sin(X)")]) Demo.still_world)
  = fst (WolframAlphaAdapter.get_offline_response Demo.keyed_wolfram "v2/query"
           (PDict [("lang", PStr "en"); ("query", PStr "derivative of sin(x)")])
           Demo.later_world).
Proof.
  assert (H1 : dict_lookup [("query", PStr "DERIVATIVE of Sin(X)")] "query"
               = Some (PStr "DERIVATIVE of Sin(X)")) by reflexivity.
  assert (H2 : dict_lookup [("lang", PStr "en"); ("query", PStr "derivative of sin(x)")]
                 "query" = Some (PStr (lower "DERIVATIVE of Sin(X)"))) by reflexivity.
  split; [exact H1 |]. split; [exact H2 |].
  exact (wolfram_offline_case_insensitive _ _ _ _ _ _ _ _ _ H1 H2).
Defined.

(** ** [WolframAlphaAdapter.make_call] *)

Lemma wolfram_offline_world (self : WolframAlphaAdapter.t) (ep : string) (p : pyval)
    (w1 w2 : World) :
  fst (WolframAlphaAdapter.get_offline_response self ep p w1)
  = fst (WolframAlphaAdapter.get_offline_response self ep p w2).
Proof.
  unfold WolframAlphaAdapter.get_offline_response.
  destruct (py_get p "query" (PStr "")) as [q | e]; [| reflexivity].
  destruct (py_lower q) as [[query | query] | e]; [| reflexivity | reflexivity].
  destruct (WolframAlphaAdapter.first_result _ query); reflexivity.
Qed.

(** [make_call] degrades to the offline answer: without an API key (unset
    or empty) it is [get_offline_response], with no request sent; and when
    the online attempt raises (the request fails, the body is not JSON or
    not an object, [params] is no mapping) the answer is again the one of
    [get_offline_response]. *)
Theorem wolfram_make_call_falls_back (self : WolframAlphaAdapter.t) (endpoint : string)
    (params : pyval) (w : World) :
  (truthy_key (WolframAlphaAdapter.api_key self) = false ->
   WolframAlphaAdapter.make_call self endpoint params w
   = WolframAlphaAdapter.get_offline_response self endpoint params w) /\
  (forall e,
     fst (WolframAlphaAdapter.online_call self
            (default "" (WolframAlphaAdapter.api_key self)) endpoint params w)
       = Raise e ->
     fst (WolframAlphaAdapter.make_call self endpoint params w)
     = fst (WolframAlphaAdapter.get_offline_response self endpoint params w)).
Proof.
  unfold WolframAlphaAdapter.make_call. split.
  - intros Hkey. rewrite Hkey. reflexivity.
  - intros e He.
    destruct (truthy_key (WolframAlphaAdapter.api_key self)); [| reflexivity].
    pose proof (wolfram_online_cases self
                  (default "" (WolframAlphaAdapter.api_key self)) endpoint params w)
      as Hon.
    unfold except_Exception.
    destruct (WolframAlphaAdapter.online_call self _ endpoint params w) as [[v | e0] w1];
      simpl in He, Hon; [discriminate |].
    rewrite Hon. apply wolfram_offline_world.
Qed.

(** With a key, the [requests] library and a mapping for [params], any
    response whose body is a JSON object is reported as a success with
    ['source': 'wolfram_alpha'], whatever its status code; the fields
    ['result'], ['steps'] and ['visualization'] that the body lacks are
    filled with ['No result available'], [[]] and ['']. *)
Theorem wolfram_make_call_ignores_status (self : WolframAlphaAdapter.t)
    (endpoint key : string) (d body : list (string * pyval)) (fp : pyval)
    (r : Response) (w : World) :
  WolframAlphaAdapter.api_key self = Some key ->
  key <> "" ->
  requests_available w = true ->
  WolframAlphaAdapter.full_params key (PDict d) = Ok fp ->
  requests_get w (tick w) (WolframAlphaAdapter.base_url self +:+ "/" +:+ endpoint) fp
    = HttpResponse r ->
  json_body r = Some (PDict body) ->
  WolframAlphaAdapter.make_call self endpoint (PDict d) w
  = (Ok (PDict [("success", PBool true);
                ("data",
                 PDict [("result",
                         default (PStr "No result available") (dict_lookup body "result"));
                        ("steps", default (PList []) (dict_lookup body "steps"));
                        ("visualization",
                         default (PStr "") (dict_lookup body "visualization"))]);
                ("source", PStr "wolfram_alpha")]),
     advance w).
Proof.
  intros Hkey Hne Hlib Hfp Hget Hbody.
  unfold WolframAlphaAdapter.make_call. rewrite Hkey.
  apply truthy_key_Some in Hne. rewrite Hne.
  change (default "" (Some key)) with key.
  unfold WolframAlphaAdapter.online_call. rewrite Hfp.
  unfold requests_get_call. rewrite Hlib, Hget.
  unfold response_json. rewrite Hbody. reflexivity.
Qed.

Lemma wolfram_make_call_ignores_status_witness :
  WolframAlphaAdapter.api_key Demo.keyed_wolfram = Some "demo-key" /\
  "demo-key" <> "" /\
  requests_available Demo.refusing_world = true /\
  WolframAlphaAdapter.full_params "demo-key" (PDict [("query", PStr "2+2")])
    = Ok (PDict [("appid", PStr "demo-key"); ("query", PStr "2+2")]) /\
  requests_get Demo.refusing_world (tick Demo.refusing_world)
    (WolframAlphaAdapter.base_url Demo.keyed_wolfram +:+ "/" +:+ "query")
    (PDict [("appid", PStr "demo-key"); ("query", PStr "2+2")])
    = HttpResponse {| status_code := 403;
                      json_body := Some (PDict [("error", PStr "Invalid appid")]) |} /\
  WolframAlphaAdapter.make_call Demo.keyed_wolfram "query"
    (PDict [("query", PStr "2+2")]) Demo.refusing_world
  = (Ok (PDict [("success", PBool true);
                ("data",
                 PDict [("result", PStr "No result available");
                        ("steps", PList []);
                        ("visualization", PStr "")]);
                ("source", PStr "wolfram_alpha")]),
     advance Demo.refusing_world).
Proof.
  assert (H1 : WolframAlphaAdapter.api_key Demo.keyed_wolfram = Some "demo-key")
    by reflexivity.
  assert (H2 : "demo-key" <> "") by discriminate.
  assert (H3 : requests_available Demo.refusing_world = true) by reflexivity.
  assert (H4 : WolframAlphaAdapter.full_params "demo-key" (PDict [("query", PStr "2+2")])
               = Ok (PDict [("appid", PStr "demo-key"); ("query", PStr "2+2")]))
    by reflexivity.
  assert (H5 : requests_get Demo.refusing_world (tick Demo.refusing_world)
                 (WolframAlphaAdapter.base_url Demo.keyed_wolfram +:+ "/" +:+ "query")
                 (PDict [("appid", PStr "demo-key"); ("query", PStr "2+2")])
               = HttpResponse {| status_code := 403;
                                 json_body := Some (PDict [("error",
                                                            PStr "Invalid appid")]) |})
    by reflexivity.
  repeat (split; [assumption |]).
  exact (wolfram_make_call_ignores_status Demo.keyed_wolfram "query" "demo-key"
           [("query", PStr "2+2")] [("error", PStr "Invalid appid")] _ _
           Demo.refusing_world H1 H2 H3 H4 H5 eq_refl).
Defined.

Lemma dict_lookup_set (d : list (string * pyval)) (k key : string) (v : pyval) :
  dict_lookup (WolframAlphaAdapter.dict_set d k v) key
  = if String.eqb k key then Some v else dict_lookup d key.
Proof.
  induction d as [| [k0 x] d IH]; simpl.
  - reflexivity.
  - destruct (String.eqb_spec k0 k) as [-> | Hne]; simpl.
    + destruct (String.eqb k key); reflexivity.
    + destruct (String.eqb_spec k0 key) as [-> | Hne2].
      * destruct (String.eqb_spec k key) as [-> | _]; [| reflexivity].
        exfalso. exact (Hne eq_refl).
      * exact IH.
Qed.

Lemma dict_lookup_not_in (d : list (string * pyval)) (key : string) :
  ~ In key (map fst d) -> dict_lookup d key = None.
Proof.
  induction d as [| [k x] d IH]; simpl; intros Hnot; [reflexivity |].
  destruct (String.eqb_spec k key) as [-> | _].
  - exfalso. apply Hnot. left. reflexivity.
  - apply IH. intros Hin. apply Hnot. right. exact Hin.
Qed.

Lemma dict_lookup_update (d acc : list (string * pyval)) (key : string) :
  List.NoDup (map fst d) ->
  dict_lookup (fold_left (fun a kv => WolframAlphaAdapter.dict_set a (fst kv) (snd kv))
                         d acc) key
  = match dict_lookup d key with
    | Some v => Some v
    | None => dict_lookup acc key
    end.
Proof.
  revert acc. induction d as [| [k x] d IH]; intros acc Hnd; simpl.
  - reflexivity.
  - inversion Hnd as [| ? ? Hnot Hnd']; subst.
    rewrite (IH _ Hnd'). rewrite dict_lookup_set. simpl.
    destruct (String.eqb_spec k key) as [-> | _].
    + rewrite (dict_lookup_not_in d key Hnot). reflexivity.
    + reflexivity.
Qed.

(** The parameters of the request, [{'appid': key, **params}]: every
    parameter of the caller is passed on, a caller's own ['appid'] replaces
    the adapter's key, and without one the adapter's key is sent. *)
Theorem wolfram_full_params_merge (key : string) (d : list (string * pyval))
    (name : string) :
  List.NoDup (map fst d) ->
  exists merged,
    WolframAlphaAdapter.full_params key (PDict d) = Ok (PDict merged) /\
    dict_lookup merged name
    = match dict_lookup d name with
      | Some v => Some v
      | None => if String.eqb name "appid" then Some (PStr key) else None
      end.
Proof.
  intros Hnd. eexists. split; [reflexivity |].
  rewrite (dict_lookup_update d _ name Hnd).
  destruct (dict_lookup d name); [reflexivity |].
  simpl. rewrite String.eqb_sym. reflexivity.
Qed.

Lemma wolfram_full_params_merge_witness :
  List.NoDup (map fst [("query", PStr "2+2"); ("appid", PStr "mine")]) /\
  exists merged,
    WolframAlphaAdapter.full_params "demo-key"
      (PDict [("query", PStr "2+2"); ("appid", PStr "mine")]) = Ok (PDict merged) /\
    dict_lookup merged "appid" = Some (PStr "mine").
Proof.
  assert (H1 : List.NoDup (map fst [("query", PStr "2+2"); ("appid", PStr "mine")])).
  { simpl. constructor.
    - intros [H | []]. discriminate H.
    - constructor; [intros [] | constructor]. }
  split; [exact H1 |].
  destruct (wolfram_full_params_merge "demo-key" _ "appid" H1) as (merged & Hm & Hl).
  exists merged. split; [exact Hm | exact Hl].
Defined.

(** ** The manager: storing, looking up, and the paths around the cache *)




(** Without a cache key ([None], or the empty string) a call for a
    registered service always goes to the adapter, whatever the cache
    holds, and stores nothing: the manager is unchanged. *)
Theorem no_cache_key_bypasses_cache (self : Manager) (rt : Runtime)
    (service_name endpoint : string) (params : pyval) (cache_key : option string)
    (adapter : Adapter) :
  truthy_key cache_key = false ->
  service_registry self !! service_name = Some adapter ->
  calls (runtime_after (make_api_call self rt service_name endpoint params cache_key))
    = calls rt ++ [{| inv_service := service_name; inv_method := chosen_method self;
                      inv_endpoint := endpoint; inv_params := params |}] /\
  manager_after (make_api_call self rt service_name endpoint params cache_key) = self.
Proof.
  intros Hk Hreg.
  assert (Hcc : cache_check self rt cache_key = (None, rt)).
  { unfold cache_check. destruct cache_key as [k |]; [| reflexivity].
    rewrite Hk. reflexivity. }
  split.
  - unfold make_api_call. rewrite Hreg, Hcc. apply dispatch_calls.
  - destruct (make_api_call_manager self rt service_name endpoint params cache_key)
      as [H | (k & _ & _ & -> & Hne & _)]; [exact H |].
    apply truthy_key_Some in Hne. congruence.
Qed.

Lemma no_cache_key_bypasses_cache_witness :
  truthy_key (Some "") = false /\
  service_registry Demo.warm_manager !! "task_simulator" = Some TaskAdapter.adapter /\
  manager_after (make_api_call Demo.warm_manager Demo.warm_runtime "task_simulator"
                   "list" (PDict []) (Some "")) = Demo.warm_manager.
Proof.
  assert (H1 : truthy_key (Some "") = false) by reflexivity.
  assert (H2 : service_registry Demo.warm_manager !! "task_simulator"
               = Some TaskAdapter.adapter) by (vm_compute; reflexivity).
  split; [exact H1 |]. split; [exact H2 |].
  exact (proj2 (no_cache_key_bypasses_cache Demo.warm_manager Demo.warm_runtime
                  "task_simulator" "list" (PDict []) (Some "") TaskAdapter.adapter
                  H1 H2)).
Defined.

(** ** The manager: connectivity and the registry *)

(** A new manager is online exactly when [requests] was imported and the
    probe answered with status 200. *)
Theorem init_online_iff_probe_ok (w : World) :
  offline_mode (fst (__init__ w)) = false <->
  requests_available w = true /\
  exists r, requests_get w (tick w) "https://httpbin.org/status/200" PNone
            = HttpResponse r /\ status_code r = 200%Z.
Proof.
  unfold __init__, _initialize_services, _check_connectivity, requests_get_call.
  destruct (requests_available w); simpl.
  - destruct (requests_get w (tick w) "https://httpbin.org/status/200" PNone)
      as [r | msg]; simpl.
    + split.
      * intros H. apply negb_false_iff in H. apply Z.eqb_eq in H.
        split; [reflexivity |]. exists r. split; [reflexivity | exact H].
      * intros (_ & r' & Hr & Hcode). injection Hr as <-.
        apply negb_false_iff. apply Z.eqb_eq. exact Hcode.
    + split; [discriminate |]. intros (_ & r & Hr & _). discriminate.
  - split; [discriminate |]. intros [H _]. discriminate.
Qed.

Lemma shipped_registry_names (w : World) (name : string) :
  is_Some (shipped_registry w !! name) <-> In name shipped_names.
Proof.
  unfold shipped_registry, shipped_names. split.
  - intros [a H]. apply elem_of_list_to_map_2 in H.
    repeat (apply elem_of_cons in H as [H | H];
            [injection H as -> _; simpl; tauto |]).
    apply elem_of_nil in H. contradiction.
  - intros H. simpl in H.
    repeat (destruct H as [<- | H]; [eexists; reflexivity |]).
    contradiction.
Qed.

(** The services of a manager never change: in every reachable state the
    registry holds exactly the nine names that [_initialize_services]
    registers. *)
Theorem registry_names_invariant (self : Manager) (name : string) :
  reachable self ->
  (is_Some (service_registry self !! name) <-> In name shipped_names).
Proof.
  intros Hreach. destruct (reachable_inv self Hreach) as ((w & Hreg) & _).
  rewrite Hreg. apply shipped_registry_names.
Qed.

Lemma registry_names_invariant_witness :
  reachable Demo.warm_manager /\
  is_Some (service_registry Demo.warm_manager !! "project_simulator") /\
  ~ is_Some (service_registry Demo.warm_manager !! "weather").
Proof.
  assert (H1 : reachable Demo.warm_manager)
    by (unfold Demo.warm_manager, Demo.first_call; apply reach_call, reach_init).
  split; [exact H1 |]. split.
  - apply (registry_names_invariant Demo.warm_manager "project_simulator" H1).
    simpl. tauto.
  - intros H. apply (registry_names_invariant Demo.warm_manager "weather" H1) in H.
    simpl in H. repeat (destruct H as [H | H]; [discriminate H |]). exact H.
Defined.

(** ** The manager: what reaches the network *)

Lemma cache_check_network (self : Manager) (rt : Runtime) (ck : option string)
    (f : nat -> string -> pyval -> http_result) :
  cache_check self (runtime_with_requests_get rt f) ck
  = (fst (cache_check self rt ck),
     runtime_with_requests_get (snd (cache_check self rt ck)) f).
Proof.
  unfold cache_check.
  destruct ck as [k |]; [| reflexivity].
  destruct (truthy_key (Some k)); [| reflexivity].
  destruct (cache self !! k) as [e |]; [| reflexivity].
  simpl. destruct (Qlt_le_dec _ _); reflexivity.
Qed.

Lemma api_call_failed_network (self : Manager) (rt : Runtime) (e : exn)
    (f : nat -> string -> pyval -> http_result) :
  api_call_failed self (runtime_with_requests_get rt f) e
  = (returned (api_call_failed self rt e),
     manager_after (api_call_failed self rt e),
     runtime_with_requests_get (runtime_after (api_call_failed self rt e)) f).
Proof. unfold api_call_failed. destruct (is_Exception e); reflexivity. Qed.

Lemma store_and_return_network (self : Manager) (rt : Runtime) (result : pyobj)
    (ck : option string) (f : nat -> string -> pyval -> http_result) :
  store_and_return self (runtime_with_requests_get rt f) result ck
  = (returned (store_and_return self rt result ck),
     manager_after (store_and_return self rt result ck),
     runtime_with_requests_get (runtime_after (store_and_return self rt result ck)) f).
Proof.
  unfold store_and_return.
  destruct (truthy_key ck); [| reflexivity].
  destruct (py_get (obj_val result) "success" PNone) as [s | e].
  - destruct (truthy s); reflexivity.
  - apply api_call_failed_network.
Qed.

Lemma dispatch_network (self : Manager) (rt : Runtime) (adapter : Adapter)
    (s ep : string) (p : pyval) (ck : option string)
    (f : nat -> string -> pyval -> http_result) :
  network_free (invoke adapter (chosen_method self)) ->
  dispatch self (runtime_with_requests_get rt f) adapter s ep p ck
  = (returned (dispatch self rt adapter s ep p ck),
     manager_after (dispatch self rt adapter s ep p ck),
     runtime_with_requests_get (runtime_after (dispatch self rt adapter s ep p ck)) f).
Proof.
  intros Hfree. unfold dispatch, after_adapter.
  change (world (log_call ?i (runtime_with_requests_get rt f)))
    with (with_requests_get (world rt) f).
  rewrite (Hfree ep p (world rt) f).
  change (world (log_call ?i rt)) with (world rt).
  destruct (invoke adapter (chosen_method self) ep p (world rt)) as [[v | e] w].
  - simpl fst. simpl snd. cbv iota.
    match goal with
    | |- (let '(result, rt3) := new_object v ?a in _) = _ =>
        change a with
          (runtime_with_requests_get
             (with_world (log_call {| inv_service := s;
                                      inv_method := chosen_method self;
                                      inv_endpoint := ep; inv_params := p |} rt) w) f)
    end.
    unfold new_object.
    match goal with
    | |- store_and_return self ?a ?o ck = _ =>
        change a with
          (runtime_with_requests_get
             {| world := w; next_id := S (next_id rt);
                calls := calls rt ++ [{| inv_service := s;
                                         inv_method := chosen_method self;
                                         inv_endpoint := ep; inv_params := p |}] |} f)
    end.
    rewrite store_and_return_network. reflexivity.
  - simpl fst. simpl snd. cbv iota.
    match goal with
    | |- api_call_failed self ?a e = _ =>
        change a with
          (runtime_with_requests_get
             (with_world (log_call {| inv_service := s;
                                      inv_method := chosen_method self;
                                      inv_endpoint := ep; inv_params := p |} rt) w) f)
    end.
    rewrite api_call_failed_network. reflexivity.
Qed.

Lemma make_api_call_network (self : Manager) (rt : Runtime) (s ep : string) (p : pyval)
    (ck : option string) (f : nat -> string -> pyval -> http_result) :
  (forall adapter, service_registry self !! s = Some adapter ->
                   network_free (invoke adapter (chosen_method self))) ->
  make_api_call self (runtime_with_requests_get rt f) s ep p ck
  = (returned (make_api_call self rt s ep p ck),
     manager_after (make_api_call self rt s ep p ck),
     runtime_with_requests_get (runtime_after (make_api_call self rt s ep p ck)) f).
Proof.
  intros Hfree. unfold make_api_call.
  destruct (service_registry self !! s) as [adapter |]; [| reflexivity].
  rewrite cache_check_network.
  destruct (cache_check self rt ck) as [[cached |] rt1]; [reflexivity |].
  simpl fst. simpl snd. cbv iota.
  apply dispatch_network. apply Hfree. reflexivity.
Qed.

Lemma wolfram_offline_network_free (self : WolframAlphaAdapter.t) :
  network_free (WolframAlphaAdapter.get_offline_response self).
Proof.
  intros ep p w f. unfold WolframAlphaAdapter.get_offline_response.
  destruct (py_get p "query" (PStr "")) as [q | e]; [| reflexivity].
  destruct (py_lower q) as [[query | query] | e]; [| reflexivity | reflexivity].
  destruct (WolframAlphaAdapter.first_result _ query); reflexivity.
Qed.

Lemma data_analysis_network_free : network_free DataAnalysisAdapter.make_call.
Proof.
  intros ep p w f.
  unfold DataAnalysisAdapter.make_call, DataAnalysisAdapter._simulate_analysis.
  destruct (py_get p "dataset" (PStr "sales")) as [x | e]; [| reflexivity].
  change (format_value (with_requests_get w f) x) with (format_value w x).
  destruct (format_value w x); reflexivity.
Qed.

Lemma relationship_network_free : network_free RelationshipAdapter.make_call.
Proof.
  intros ep p w f.
  unfold RelationshipAdapter.make_call, RelationshipAdapter._analyze_relationship.
  destruct (py_get p "context" (PStr "general")); reflexivity.
Qed.

(** In the shipped registry only [WolframAlphaAdapter.make_call] can send a
    request. *)
Lemma shipped_registry_network_free (w0 : World) (name : string) (a : Adapter)
    (m : method) :
  shipped_registry w0 !! name = Some a ->
  m = GetOfflineResponse \/ name <> "wolfram_alpha" ->
  network_free (invoke a m).
Proof.
  unfold shipped_registry. intros H Hcase.
  apply elem_of_list_to_map_2 in H.
  apply elem_of_cons in H as [H | H].
  - injection H as -> ->. destruct Hcase as [-> | Hne]; [| congruence].
    apply wolfram_offline_network_free.
  - repeat (apply elem_of_cons in H as [H | H];
            [injection H as _ ->; destruct m; simpl;
             first [ apply data_analysis_network_free
                   | apply relationship_network_free
                   | intros ep p w f; reflexivity ] |]).
    apply elem_of_nil in H. contradiction.
Qed.

(** The network is out of the picture whenever the manager is offline, and
    for every service but ['wolfram_alpha'] also when it is online: with
    another network behind [requests.get] the call returns the same object
    and leaves the same manager and the same run-time state.  No request
    is ever sent on these paths. *)
Theorem offline_calls_never_use_network (self : Manager) (rt : Runtime)
    (service_name endpoint : string) (params : pyval) (cache_key : option string)
    (f : nat -> string -> pyval -> http_result) :
  reachable self ->
  offline_mode self = true \/ service_name <> "wolfram_alpha" ->
  make_api_call self (runtime_with_requests_get rt f) service_name endpoint params cache_key
  = (returned (make_api_call self rt service_name endpoint params cache_key),
     manager_after (make_api_call self rt service_name endpoint params cache_key),
     runtime_with_requests_get
       (runtime_after (make_api_call self rt service_name endpoint params cache_key)) f).
Proof.
  intros Hreach Hcase.
  destruct (reachable_inv self Hreach) as ((w0 & Hreg) & _).
  apply make_api_call_network. intros adapter Ha. rewrite Hreg in Ha.
  apply (shipped_registry_network_free w0 service_name adapter _ Ha).
  destruct Hcase as [Hoff | Hne]; [left | right; exact Hne].
  unfold chosen_method. rewrite Hoff. reflexivity.
Qed.

Lemma offline_calls_never_use_network_witness :
  reachable Demo.warm_manager /\
  (offline_mode Demo.warm_manager = true \/ "wolfram_alpha" <> "wolfram_alpha") /\
  returned (make_api_call Demo.warm_manager
              (runtime_with_requests_get Demo.late_runtime
                 (requests_get Demo.refusing_world))
              "wolfram_alpha" "query" (PDict [("query", PStr "integral of 2x")]) None)
  = returned (make_api_call Demo.warm_manager Demo.late_runtime
                "wolfram_alpha" "query" (PDict [("query", PStr "integral of 2x")]) None).
Proof.
  assert (H1 : reachable Demo.warm_manager)
    by (unfold Demo.warm_manager, Demo.first_call; apply reach_call, reach_init).
  assert (H2 : offline_mode Demo.warm_manager = true \/
               "wolfram_alpha" <> "wolfram_alpha")
    by (left; vm_compute; reflexivity).
  split; [exact H1 |]. split; [exact H2 |].
  exact (f_equal returned
           (offline_calls_never_use_network Demo.warm_manager Demo.late_runtime
              "wolfram_alpha" "query" (PDict [("query", PStr "integral of 2x")]) None
              (requests_get Demo.refusing_world) H1 H2)).
Defined.

(** ** The manager: calls that leave [params] out *)

Lemma wolfram_params_None (self : WolframAlphaAdapter.t) (m : method) (ep : string)
    (w : World) :
  fst (invoke (WolframAlphaAdapter.adapter self) m ep PNone w)
  = Raise (no_attribute PNone "get").
Proof.
  destruct m; simpl; [| reflexivity].
  unfold WolframAlphaAdapter.make_call.
  destruct (truthy_key (WolframAlphaAdapter.api_key self)); reflexivity.
Qed.

Lemma call_without_key (self : Manager) (rt : Runtime) (s ep : string) (p : pyval)
    (adapter : Adapter) :
  service_registry self !! s = Some adapter ->
  well_behaved adapter ->
  exists r,
    returned (make_api_call self rt s ep p None) = Ok r /\
    match invoke adapter (chosen_method self) ep p (world rt) with
    | (Ok v, _) => obj_val r = v
    | (Raise e, w) =>
        obj_val r = error_envelope ("API call failed: " +:+ exn_str e)
                      (isoformat (datetime_now w (tick w))) (offline_mode self)
    end.
Proof.
  intros Hreg Hwb. unfold make_api_call. rewrite Hreg. simpl.
  destruct (dispatch_well_behaved self rt adapter s ep p None Hwb)
    as (r & Hr & _ & _ & Hcase).
  exists r. split; [exact Hr |].
  destruct (invoke adapter (chosen_method self) ep p (world rt)) as [[v | e] w];
    [exact Hcase | exact (proj1 Hcase)].
Qed.

(** [params] defaults to [None].  A call that leaves it out (and gives no
    cache key) fails for the three services whose adapter reads [params]:
    ['wolfram_alpha'], ['data_analysis'] and ['relationship_analyzer']
    answer with the envelope of the [AttributeError]; the six other
    services answer with a result that reports success. *)
Theorem omitted_params_outcome (self : Manager) (rt : Runtime)
    (service_name endpoint : string) :
  reachable self ->
  (In service_name ["wolfram_alpha"; "data_analysis"; "relationship_analyzer"] ->
   exists r ts,
     returned (make_api_call self rt service_name endpoint PNone None) = Ok r /\
     obj_val r =
       PDict [("success", PBool false);
              ("error",
               PStr "API call failed: 'NoneType' object has no attribute 'get'");
              ("timestamp", PStr ts);
              ("offline_mode", PBool (offline_mode self))]) /\
  (In service_name ["math_computation"; "calendar_simulator"; "task_simulator";
                    "accounting_simulator"; "agriculture_simulator";
                    "project_simulator"] ->
   exists r,
     returned (make_api_call self rt service_name endpoint PNone None) = Ok r /\
     reports_success (obj_val r) = true).
Proof.
  intros Hreach.
  destruct (reachable_inv self Hreach) as ((w0 & Hreg) & _).
  assert (Hcall : forall adapter,
            shipped_registry w0 !! service_name = Some adapter ->
            exists r,
              returned (make_api_call self rt service_name endpoint PNone None) = Ok r /\
              match invoke adapter (chosen_method self) endpoint PNone (world rt) with
              | (Ok v, _) => obj_val r = v
              | (Raise e, w) =>
                  obj_val r = error_envelope ("API call failed: " +:+ exn_str e)
                                (isoformat (datetime_now w (tick w))) (offline_mode self)
              end).
  { intros adapter Ha. apply call_without_key.
    - rewrite Hreg. exact Ha.
    - exact (shipped_registry_well_behaved w0 service_name adapter Ha). }
  split; intros Hin; simpl in Hin.
  - destruct Hin as [<- | [<- | [<- | []]]].
    + destruct (Hcall _ eq_refl) as (r & Hr & Hcase).
      pose proof (wolfram_params_None (WolframAlphaAdapter.__init__ w0)
                    (chosen_method self) endpoint (world rt)) as Hraise.
      destruct (invoke _ (chosen_method self) endpoint PNone (world rt)) as [[v | e] w];
        simpl in Hraise; [discriminate |].
      injection Hraise as ->. eauto.
    + destruct (Hcall DataAnalysisAdapter.adapter eq_refl) as (r & Hr & Hcase).
      destruct (chosen_method self); simpl in Hcase; eauto.
    + destruct (Hcall RelationshipAdapter.adapter eq_refl) as (r & Hr & Hcase).
      destruct (chosen_method self); simpl in Hcase; eauto.
  - destruct Hin as [<- | [<- | [<- | [<- | [<- | [<- | []]]]]]].
    + destruct (Hcall MathComputationAdapter.adapter eq_refl) as (r & Hr & Hcase).
      exists r. split; [exact Hr |].
      destruct (chosen_method self); simpl in Hcase; rewrite Hcase; reflexivity.
    + destruct (Hcall CalendarAdapter.adapter eq_refl) as (r & Hr & Hcase).
      exists r. split; [exact Hr |].
      destruct (chosen_method self); simpl in Hcase; rewrite Hcase; reflexivity.
    + destruct (Hcall TaskAdapter.adapter eq_refl) as (r & Hr & Hcase).
      exists r. split; [exact Hr |].
      destruct (chosen_method self); simpl in Hcase; rewrite Hcase; reflexivity.
    + destruct (Hcall AccountingAdapter.adapter eq_refl) as (r & Hr & Hcase).
      exists r. split; [exact Hr |].
      destruct (chosen_method self); simpl in Hcase; rewrite Hcase; reflexivity.
    + destruct (Hcall AgricultureAdapter.adapter eq_refl) as (r & Hr & Hcase).
      exists r. split; [exact Hr |].
      destruct (chosen_method self); simpl in Hcase; rewrite Hcase; reflexivity.
    + destruct (Hcall ProjectManagementAdapter.adapter eq_refl) as (r & Hr & Hcase).
      exists r. split; [exact Hr |].
      destruct (chosen_method self); simpl in Hcase; rewrite Hcase; reflexivity.
Qed.

Lemma omitted_params_outcome_witness :
  reachable Demo.warm_manager /\
  exists r ts,
    returned (make_api_call Demo.warm_manager Demo.late_runtime "data_analysis"
                "analyze" PNone None) = Ok r /\
    obj_val r =
      PDict [("success", PBool false);
             ("error",
              PStr "API call failed: 'NoneType' object has no attribute 'get'");
             ("timestamp", PStr ts);
             ("offline_mode", PBool (offline_mode Demo.warm_manager))].
Proof.
  assert (H1 : reachable Demo.warm_manager)
    by (unfold Demo.warm_manager, Demo.first_call; apply reach_call, reach_init).
  split; [exact H1 |].
  apply (proj1 (omitted_params_outcome Demo.warm_manager Demo.late_runtime
                  "data_analysis" "analyze" H1)).
  simpl. tauto.
Defined.

(** ** The simulated services *)

(** Five services answer with fixed data: for ['math_computation'],
    ['task_simulator'], ['accounting_simulator'], ['agriculture_simulator']
    and ['project_simulator'] the value that a manager returns does not
    depend on the endpoint, the params or the moment of the call. *)
Theorem simulated_services_ignore_request (self : Manager) (rt1 rt2 : Runtime)
    (service_name ep1 ep2 : string) (p1 p2 : pyval) :
  reachable self ->
  In service_name ["math_computation"; "task_simulator"; "accounting_simulator";
                   "agriculture_simulator"; "project_simulator"] ->
  exists r1 r2,
    returned (make_api_call self rt1 service_name ep1 p1 None) = Ok r1 /\
    returned (make_api_call self rt2 service_name ep2 p2 None) = Ok r2 /\
    obj_val r1 = obj_val r2 /\
    reports_success (obj_val r1) = true.
Proof.
  intros Hreach Hin.
  destruct (reachable_inv self Hreach) as ((w0 & Hreg) & _).
  assert (Hcall : forall adapter rt ep p,
            shipped_registry w0 !! service_name = Some adapter ->
            exists r,
              returned (make_api_call self rt service_name ep p None) = Ok r /\
              match invoke adapter (chosen_method self) ep p (world rt) with
              | (Ok v, _) => obj_val r = v
              | (Raise e, w) =>
                  obj_val r = error_envelope ("API call failed: " +:+ exn_str e)
                                (isoformat (datetime_now w (tick w))) (offline_mode self)
              end).
  { intros adapter rt ep p Ha. apply call_without_key.
    - rewrite Hreg. exact Ha.
    - exact (shipped_registry_well_behaved w0 service_name adapter Ha). }
  simpl in Hin.
  destruct Hin as [<- | [<- | [<- | [<- | [<- | []]]]]].
  - destruct (Hcall MathComputationAdapter.adapter rt1 ep1 p1 eq_refl) as (r1 & Hr1 & H1).
    destruct (Hcall MathComputationAdapter.adapter rt2 ep2 p2 eq_refl) as (r2 & Hr2 & H2).
    exists r1, r2. repeat (split; [assumption |]).
    destruct (chosen_method self); simpl in H1, H2; rewrite H1, H2; split; reflexivity.
  - destruct (Hcall TaskAdapter.adapter rt1 ep1 p1 eq_refl) as (r1 & Hr1 & H1).
    destruct (Hcall TaskAdapter.adapter rt2 ep2 p2 eq_refl) as (r2 & Hr2 & H2).
    exists r1, r2. repeat (split; [assumption |]).
    destruct (chosen_method self); simpl in H1, H2; rewrite H1, H2; split; reflexivity.
  - destruct (Hcall AccountingAdapter.adapter rt1 ep1 p1 eq_refl) as (r1 & Hr1 & H1).
    destruct (Hcall AccountingAdapter.adapter rt2 ep2 p2 eq_refl) as (r2 & Hr2 & H2).
    exists r1, r2. repeat (split; [assumption |]).
    destruct (chosen_method self); simpl in H1, H2; rewrite H1, H2; split; reflexivity.
  - destruct (Hcall AgricultureAdapter.adapter rt1 ep1 p1 eq_refl) as (r1 & Hr1 & H1).
    destruct (Hcall AgricultureAdapter.adapter rt2 ep2 p2 eq_refl) as (r2 & Hr2 & H2).
    exists r1, r2. repeat (split; [assumption |]).
    destruct (chosen_method self); simpl in H1, H2; rewrite H1, H2; split; reflexivity.
  - destruct (Hcall ProjectManagementAdapter.adapter rt1 ep1 p1 eq_refl)
      as (r1 & Hr1 & H1).
    destruct (Hcall ProjectManagementAdapter.adapter rt2 ep2 p2 eq_refl)
      as (r2 & Hr2 & H2).
    exists r1, r2. repeat (split; [assumption |]).
    destruct (chosen_method self); simpl in H1, H2; rewrite H1, H2; split; reflexivity.
Qed.

Lemma simulated_services_ignore_request_witness :
  reachable Demo.warm_manager /\
  In "accounting_simulator"
     ["math_computation"; "task_simulator"; "accounting_simulator";
      "agriculture_simulator"; "project_simulator"] /\
  exists r1 r2,
    returned (make_api_call Demo.warm_manager Demo.warm_runtime "accounting_simulator"
                "financial_statements" (PDict []) None) = Ok r1 /\
    returned (make_api_call Demo.warm_manager Demo.late_runtime "accounting_simulator"
                "balance" PNone None) = Ok r2 /\
    obj_val r1 = obj_val r2.
Proof.
  assert (H1 : reachable Demo.warm_manager)
    by (unfold Demo.warm_manager, Demo.first_call; apply reach_call, reach_init).
  assert (H2 : In "accounting_simulator"
                  ["math_computation"; "task_simulator"; "accounting_simulator";
                   "agriculture_simulator"; "project_simulator"])
    by (simpl; tauto).
  split; [exact H1 |]. split; [exact H2 |].
  destruct (simulated_services_ignore_request Demo.warm_manager Demo.warm_runtime
              Demo.late_runtime "accounting_simulator" "financial_statements" "balance"
              (PDict []) PNone H1 H2) as (r1 & r2 & Ha & Hb & Hc & _).
  exists r1, r2. repeat split; assumption.
Defined.

(** A params dict without ['dataset'] is analysed as the dataset
    ['sales']. *)
Theorem data_analysis_default_dataset (endpoint : string) (d : list (string * pyval))
    (w : World) :
  dict_lookup d "dataset" = None ->
  DataAnalysisAdapter.make_call endpoint (PDict d) w
  = DataAnalysisAdapter.make_call endpoint (PDict [("dataset", PStr "sales")]) w.
Proof.
  intros Hd. unfold DataAnalysisAdapter.make_call, DataAnalysisAdapter._simulate_analysis.
  cbn [py_get]. rewrite Hd. reflexivity.
Qed.

Lemma data_analysis_default_dataset_witness :
  dict_lookup [("level", PStr "beginner")] "dataset" = None /\
  DataAnalysisAdapter.make_call "analyze" (PDict [("level", PStr "beginner")])
    Demo.still_world
  = DataAnalysisAdapter.make_call "analyze" (PDict [("dataset", PStr "sales")])
      Demo.still_world.
Proof.
  assert (H1 : dict_lookup [("level", PStr "beginner")] "dataset" = None) by reflexivity.
  split; [exact H1 |].
  exact (data_analysis_default_dataset "analyze" _ Demo.still_world H1).
Defined.

(** ** The security tiers *)

